(** * Express-MongoDB API Framework: request validation, error handling and
    the todo resource, as a shallow embedding.

    The embedding follows the JavaScript sources:
    - [v1_schema/_todo_schema.js], [v1_schema/schema.js] : the schema registry;
    - [v1_schema/validation.js] : [getSchemaValidator];
    - [lib/auth/authenticate_user.js] : [authenticate_user];
    - [lib/utilities/mongo_utils.js] : [castObjectId],
      [validateObjectIdParamHandler];
    - [lib/utilities/error_utils.js] : [getErrorTemplateParams];
    - [v1_routes/todo_demo_routes/todo_demo_module.js] : [TodoDemoModule];
    - [v1_routes/*/..._index.js] : the routes;
    - [app.js] : the 404 handler and the central error handler.

    Third-party code the sources call (Ajv 8, Express, http-errors, the
    MongoDB driver) is modelled after its documented behaviour, each piece
    under a comment that says so.  Logger calls are left out: they neither
    change control flow nor any response. *)

From Stdlib Require Import ZArith Ascii String List Bool Lia.
From stdpp Require Import base option list strings gmap pretty.

Set Warnings "-register-all".

Local Open Scope string_scope.
Local Open Scope list_scope.

(** ** The JavaScript runtime *)

(** JavaScript numbers are IEEE-754 doubles.  The sources only need the few
    operations below, so the number type is kept abstract: everything proved
    holds for any implementation of this interface. *)
Class JsRuntime (num : Type) := {
  num_eq_dec :: EqDecision num;
  (** [+false], [+null] and [+true] *)
  num_zero : num;
  num_one : num;
  (** [data === 0] and [data === 1] *)
  num_is_zero : num -> bool;
  num_is_one : num -> bool;
  (** [isFinite(data)] *)
  num_isFinite : num -> bool;
  (** [+data] on a string; [None] stands for [NaN] *)
  string_to_number : string -> option num;
  (** the string concatenation of the empty string with [data] *)
  number_to_string : num -> string;
  (** the text an [Error] captures in its [stack] when it is created, from
      its message *)
  capture_stack : string -> string;
}.

(** ** ObjectId *)

Inductive hexdigit : Type :=
| H0 | H1 | H2 | H3 | H4 | H5 | H6 | H7
| H8 | H9 | HA | HB | HC | HD | HE | HF.

#[global] Instance hexdigit_eq_dec : EqDecision hexdigit.
Proof. solve_decision. Defined.

(** A MongoDB ObjectId: twelve bytes, kept as their hexadecimal digits. *)
Definition ObjectId : Type := list hexdigit.

Definition hex_of_ascii (c : ascii) : option hexdigit :=
  match c with
  | "0"%char => Some H0 | "1"%char => Some H1 | "2"%char => Some H2
  | "3"%char => Some H3 | "4"%char => Some H4 | "5"%char => Some H5
  | "6"%char => Some H6 | "7"%char => Some H7 | "8"%char => Some H8
  | "9"%char => Some H9
  | "a"%char | "A"%char => Some HA
  | "b"%char | "B"%char => Some HB
  | "c"%char | "C"%char => Some HC
  | "d"%char | "D"%char => Some HD
  | "e"%char | "E"%char => Some HE
  | "f"%char | "F"%char => Some HF
  | _ => None
  end.

Definition ascii_of_hex (d : hexdigit) : ascii :=
  match d with
  | H0 => "0" | H1 => "1" | H2 => "2" | H3 => "3" | H4 => "4" | H5 => "5"
  | H6 => "6" | H7 => "7" | H8 => "8" | H9 => "9" | HA => "a" | HB => "b"
  | HC => "c" | HD => "d" | HE => "e" | HF => "f"
  end%char.

Fixpoint parse_hex (s : string) : option (list hexdigit) :=
  match s with
  | EmptyString => Some []
  | String c rest =>
      match hex_of_ascii c, parse_hex rest with
      | Some d, Some ds => Some (d :: ds)
      | _, _ => None
      end
  end.

(** [ObjectId.createFromHexString] of the MongoDB driver: a string of
    exactly 24 hexadecimal digits gives an ObjectId, any other string
    throws ([None]). *)
Definition createFromHexString (s : string) : option ObjectId :=
  if Nat.eqb (String.length s) 24 then parse_hex s else None.

(** [ObjectId.isValid] of the MongoDB driver (version 6) on a string, which
    is what a route parameter is: whether an ObjectId can be made of it. *)
Definition ObjectId_isValid (s : string) : bool :=
  match createFromHexString s with Some _ => true | None => false end.

(** [ObjectId.prototype.toHexString], which is also how an ObjectId is
    written in a JSON response. *)
Fixpoint toHexString (o : ObjectId) : string :=
  match o with
  | [] => EmptyString
  | d :: ds => String (ascii_of_hex d) (toHexString ds)
  end.

(** mongo_utils.js: [castObjectId]. *)
Definition castObjectId (id : string) : option ObjectId :=
  createFromHexString id.

(** ** JavaScript values *)

Section Embedding.
Context {num : Type} `{JsRuntime num}.

(** The values that occur in request bodies, documents and responses.  An
    object is its list of own properties in insertion order; an absent
    property is JavaScript's [undefined]. *)
Inductive value : Type :=
| VNull
| VBool (b : bool)
| VNum (n : num)
| VStr (s : string)
| VArr (items : list value)
| VObj (fields : list (string * value))
| VDate (millis : Z)
| VObjectId (o : ObjectId).

Definition object : Type := list (string * value).

Definition keys (o : object) : list string := map fst o.

(** [o[k]] *)
Fixpoint get_prop (o : object) (k : string) : option value :=
  match o with
  | [] => None
  | (k', v) :: rest => if String.eqb k' k then Some v else get_prop rest k
  end.

(** [o[k] = v]: an existing property keeps its place, a new one is added
    last. *)
Fixpoint set_prop (o : object) (k : string) (v : value) : object :=
  match o with
  | [] => [(k, v)]
  | (k', v') :: rest =>
      if String.eqb k' k then (k', v) :: rest else (k', v') :: set_prop rest k v
  end.

(** [delete o[k]] *)
Fixpoint delete_prop (o : object) (k : string) : object :=
  match o with
  | [] => []
  | (k', v') :: rest =>
      if String.eqb k' k then delete_prop rest k else (k', v') :: delete_prop rest k
  end.

(** [{...a, ...b}] continued: copy the own properties of [b] onto [a]. *)
Definition spread (a b : object) : object :=
  fold_left (fun acc kv => set_prop acc (fst kv) (snd kv)) b a.

Fixpoint value_eqb (a b : value) {struct a} : bool :=
  match a, b with
  | VNull, VNull => true
  | VBool x, VBool y => Bool.eqb x y
  | VNum x, VNum y => bool_decide (x = y)
  | VStr x, VStr y => String.eqb x y
  | VArr xs, VArr ys =>
      (fix go (xs ys : list value) {struct xs} : bool :=
         match xs, ys with
         | [], [] => true
         | x :: xs', y :: ys' => value_eqb x y && go xs' ys'
         | _, _ => false
         end) xs ys
  | VObj xs, VObj ys =>
      (fix go (xs ys : list (string * value)) {struct xs} : bool :=
         match xs, ys with
         | [], [] => true
         | (k, x) :: xs', (k', y) :: ys' =>
             String.eqb k k' && value_eqb x y && go xs' ys'
         | _, _ => false
         end) xs ys
  | VDate s, VDate t => Z.eqb s t
  | VObjectId x, VObjectId y => bool_decide (x = y)
  | _, _ => false
  end.

Definition object_eqb (a b : object) : bool := value_eqb (VObj a) (VObj b).

(** ** The schema registry *)

(** The primitive types the property sub-schemas of the registry use. *)
Inductive JSONType : Type := TString | TNumber | TBoolean.

(** An object schema ([type: "object"]), the only kind the registry holds:
    - [required]: the [required] array, [None] once the key is deleted;
    - [properties]: the own keys of [properties], in key order, each with
      the [type] of its sub-schema;
    - [additionalProperties]: the flag of that name. *)
Record Schema : Type := {
  required : option (list string);
  properties : list (string * JSONType);
  additionalProperties : bool;
}.

(** _todo_schema.js *)
Definition todo_schema : Schema := {|
  required := Some ["task"; "priority"; "assigned_to"; "is_complete"];
  properties :=
    [("task", TString); ("priority", TNumber);
     ("assigned_to", TString); ("is_complete", TBoolean)];
  additionalProperties := false;
|}.

(** Objects live in a heap and are handled through references, so that a
    mutation through one reference is seen through every alias. *)
Definition loc : Type := positive.

(** The heap location of the object exported by _todo_schema.js. *)
Definition todo_schema_ref : loc := 1%positive.

(** schema.js: the object [{ todo: require("./_todo_schema") }], a map from
    own keys to references. *)
Definition schema : gmap string loc := {[ "todo" := todo_schema_ref ]}.

(** The heap once the schema modules are loaded. *)
Definition initial_heap : gmap loc Schema := {[ todo_schema_ref := todo_schema ]}.

(** ** Ajv *)

(** The model of Ajv 8 as the sources configure it,
    [new Ajv({ allErrors: true, coerceTypes: true, useDefaults: true })],
    for the schemas above (no schema has a [default]).  *)

(** An entry of [validate.errors], with the two fields [errorsText] reads. *)
Record ErrorObject : Type := {
  instancePath : string;
  message : string;
}.

Definition type_name (t : JSONType) : string :=
  match t with
  | TString => "string"
  | TNumber => "number"
  | TBoolean => "boolean"
  end.

(** Ajv's data type check for one type. *)
Definition checkDataType (t : JSONType) (data : value) : bool :=
  match t, data with
  | TString, VStr _ => true
  | TNumber, VNum n => num_isFinite n
  | TBoolean, VBool _ => true
  | _, _ => false
  end.

(** Ajv's [coerceData] for a value of the wrong type: the coerced value, or
    [None] when the value cannot be coerced (a type error). *)
Definition coerceData (t : JSONType) (data : value) : option (value) :=
  match t with
  | TString =>
      match data with
      | VNum n => Some (VStr (number_to_string n))
      | VBool true => Some (VStr "true")
      | VBool false => Some (VStr "false")
      | VNull => Some (VStr "")
      | _ => None
      end
  | TNumber =>
      match data with
      | VBool true => Some (VNum num_one)
      | VBool false => Some (VNum num_zero)
      | VNull => Some (VNum num_zero)
      | VStr s =>
          if String.eqb s "" then None
          else match string_to_number s with
               | Some n => Some (VNum n)
               | None => None
               end
      | _ => None
      end
  | TBoolean =>
      match data with
      | VStr "false" => Some (VBool false)
      | VNull => Some (VBool false)
      | VStr "true" => Some (VBool true)
      | VNum n =>
          if num_is_zero n then Some (VBool false)
          else if num_is_one n then Some (VBool true)
          else None
      | _ => None
      end
  end.

(** What a property holds after its sub-schema ran. *)
Definition coerce_field (t : JSONType) (data : value) : value :=
  if checkDataType t data then data
  else match coerceData t data with
       | Some c => c
       | None => data
       end.

(** Whether the sub-schema [{type: t}] reports a type error on [data]. *)
Definition type_error (t : JSONType) (data : value) : bool :=
  if checkDataType t data then false
  else match coerceData t data with
       | Some _ => false
       | None => true
       end.

(** JSON-pointer escaping of a property name in [instancePath]. *)
Fixpoint escapeJsonPointer (s : string) : string :=
  match s with
  | EmptyString => EmptyString
  | String "~"%char rest => String "~" (String "0" (escapeJsonPointer rest))
  | String "/"%char rest => String "~" (String "1" (escapeJsonPointer rest))
  | String c rest => String c (escapeJsonPointer rest)
  end.

(** The names every object inherits from [Object.prototype].  Ajv tests
    [data[p] !== undefined], which an inherited member passes on an object
    that has no own property [p]. *)
Definition object_prototype_keys : list string :=
  ["constructor"; "hasOwnProperty"; "isPrototypeOf"; "propertyIsEnumerable";
   "toLocaleString"; "toString"; "valueOf"; "__proto__";
   "__defineGetter__"; "__defineSetter__"; "__lookupGetter__";
   "__lookupSetter__"].

Definition inherited (p : string) : bool :=
  existsb (String.eqb p) object_prototype_keys.

(** Keyword [required] with [allErrors]: one error per listed property that
    is [undefined] in the data, in the order of the array. *)
Definition required_errors (req : option (list string)) (o : object)
  : list ErrorObject :=
  match req with
  | None => []
  | Some props =>
      flat_map (fun p =>
        match get_prop o p with
        | None =>
            if inherited p then []
            else [ {| instancePath := "";
                      message := "must have required property '" +:+ p +:+ "'" |} ]
        | Some _ => []
        end) props
  end.

Definition is_declared (props : list (string * JSONType)) (k : string) : bool :=
  existsb (String.eqb k) (map fst props).

(** Keyword [additionalProperties]: with [false], one error per key of the
    data that is not a key of [properties]. *)
Definition additional_errors (closed_off : bool)
    (props : list (string * JSONType)) (o : object) : list ErrorObject :=
  if closed_off then
    flat_map (fun kv =>
      if is_declared props (fst kv) then []
      else [ {| instancePath := "";
                message := "must NOT have additional properties" |} ]) o
  else [].

(** Keyword [properties]: each declared property that is present in the
    data is checked against its type; a value of another type is coerced in
    place when it can be, and is a type error otherwise.  An inherited
    member (a function, or the prototype) has none of the declared types
    and cannot be coerced. *)
Fixpoint apply_properties (props : list (string * JSONType)) (o : object)
  : list ErrorObject * object :=
  match props with
  | [] => ([], o)
  | (p, t) :: rest =>
      match get_prop o p with
      | None =>
          if inherited p then
            let '(errs, o') := apply_properties rest o in
            ({| instancePath := "/" +:+ escapeJsonPointer p;
                message := "must be " +:+ type_name t |} :: errs, o')
          else apply_properties rest o
      | Some v =>
          if checkDataType t v then apply_properties rest o
          else match coerceData t v with
               | Some c => apply_properties rest (set_prop o p c)
               | None =>
                   let '(errs, o') := apply_properties rest o in
                   ({| instancePath := "/" +:+ escapeJsonPointer p;
                       message := "must be " +:+ type_name t |} :: errs, o')
               end
      end
  end.

(** The function [ajv.compile(s)] returns, run on [data]: the collected
    errors and the data as the run leaves it (coercions are written into
    the data itself).  The keywords of an object run in Ajv's rule order:
    [required], [additionalProperties], [properties]. *)
Definition validate (s : Schema) (data : value)
  : list ErrorObject * value :=
  match data with
  | VObj o =>
      let e_req := required_errors (required s) o in
      let e_add :=
        additional_errors (negb (additionalProperties s)) (properties s) o in
      let '(e_props, o') := apply_properties (properties s) o in
      (e_req ++ e_add ++ e_props, VObj o')
  | _ => ([ {| instancePath := ""; message := "must be object" |} ], data)
  end.

Fixpoint join (sep : string) (parts : list string) : string :=
  match parts with
  | [] => ""
  | [x] => x
  | x :: rest => x +:+ sep +:+ join sep rest
  end.

(** [ajv.errorsText(errors)] with the default separator and data name. *)
Definition errorsText (errors : list ErrorObject) : string :=
  match errors with
  | [] => "No errors"
  | _ => join ", " (map (fun e => "data" +:+ instancePath e +:+ " " +:+ message e) errors)
  end.

(** ** Errors, requests and responses *)

(** A JavaScript [Error] as the handlers see it: the fields the central
    error handler reads. *)
Record HttpError : Type := {
  err_status : option nat;
  err_message : string;
  err_stack : option string;
}.

(** [new Error(message)] *)
Definition newError (msg : string) : HttpError :=
  {| err_status := None; err_message := msg;
     err_stack := Some (capture_stack msg) |}.

(** http-errors: [createError(status, message)]. *)
Definition createError (status : nat) (msg : string) : HttpError :=
  {| err_status := Some status; err_message := msg;
     err_stack := Some (capture_stack msg) |}.

(** authenticate_user.js: the object attached as [req.user]. *)
Record User : Type := {
  user_id : string;
  username : string;
  roles : list string;
}.

(** The routes the application registers, as Express matches a request to
    them, with the [:id] parameter where the path has one. *)
Inductive Endpoint : Type :=
| GetTodos
| GetTodo (id : string)
| PostTodo
| PutTodo (id : string)
| DeleteTodo (id : string)
| HealthCheck
| ThrowError
| AuthTest
| ErrorTest
| Unrouted.

Record Request : Type := {
  (** the route Express resolves the request to *)
  req_endpoint : Endpoint;
  req_method : string;
  req_originalUrl : string;
  (** [req.accepts("json")] *)
  req_accepts_json : bool;
  req_body : value;
  req_user : option User;
}.

Definition with_body (req : Request) (b : value) : Request :=
  {| req_endpoint := req_endpoint req;
     req_method := req_method req; req_originalUrl := req_originalUrl req;
     req_accepts_json := req_accepts_json req; req_body := b;
     req_user := req_user req |}.

Definition with_user (req : Request) (u : User) : Request :=
  {| req_endpoint := req_endpoint req;
     req_method := req_method req; req_originalUrl := req_originalUrl req;
     req_accepts_json := req_accepts_json req; req_body := req_body req;
     req_user := Some u |}.

(** The [stack] handed to the error template: a captured text, the empty
    array, or [undefined]. *)
Inductive StackField : Type :=
| StackText (s : string)
| StackEmptyArray
| StackUndefined.

(** The [status] of the object handed to [getErrorTemplateParams]: a number,
    or the string html_routes_index.js stores. *)
Inductive StatusField : Type :=
| StatusNumber (n : nat)
| StatusString (s : string).

(** The object [getErrorTemplateParams] returns. *)
Record TemplateParams : Type := {
  title : string;
  status_code : option StatusField;
  heading : string;
  request : string;
  tp_message : string;
  stack : StackField;
}.

Inductive Body : Type :=
| BodyJson (v : value)
| BodyText (s : string)
| BodyRender (view : string) (params : TemplateParams)
| BodyNone.

Record Response : Type := {
  res_status : nat;
  res_body : Body;
}.

(** What a middleware does with a request (which it may have modified):
    [next()], [next(err)], or a response of its own. *)
Inductive Outcome : Type :=
| Next (req : Request)
| NextErr (err : HttpError) (req : Request)
| Respond (res : Response) (req : Request).

(** Express: [res.sendStatus(code)] sends the status text as the body, for
    the codes the sources send (any other code is written as a number); a
    204 response carries no body. *)
Definition sendStatus (code : nat) : Response :=
  match code with
  | 200 => {| res_status := 200; res_body := BodyText "OK" |}
  | 204 => {| res_status := 204; res_body := BodyNone |}
  | 404 => {| res_status := 404; res_body := BodyText "Not Found" |}
  | 503 => {| res_status := 503; res_body := BodyText "Service Unavailable" |}
  | _ => {| res_status := code; res_body := BodyText (pretty code) |}
  end.

(** ** validation.js *)

(** The middleware [getSchemaValidator] returns: the one for an unknown
    schema type, or the one that closes over [schemaType], [mode] and the
    function Ajv compiled, which is determined by the schema it was
    compiled from. *)
Inductive Gate : Type :=
| UnknownSchemaGate
| SchemaGate (schemaType mode : string) (compiled : Schema).

(** [delete schemaCopy.required], through the reference [schemaCopy]. *)
Definition delete_required (s : Schema) : Schema :=
  {| required := None; properties := properties s;
     additionalProperties := additionalProperties s |}.

(** [getSchemaValidator(schemaType, mode)], run on a heap.  The JSON
    round trip [JSON.parse(JSON.stringify(baseSchema))] allocates a fresh
    object with the same contents.  [None] is a dangling reference, which
    JavaScript does not have. *)
Definition getSchemaValidator (schema : gmap string loc)
    (schemaType mode : string) (heap : gmap loc Schema)
  : option (Gate * gmap loc Schema) :=
  match schema !! schemaType with
  | None => Some (UnknownSchemaGate, heap)
  | Some baseSchema =>
      match heap !! baseSchema with
      | None => None
      | Some contents =>
          let schemaCopy : loc := fresh (dom heap) in
          let heap1 := <[schemaCopy := contents]> heap in
          let heap2 :=
            if String.eqb mode "partial"
            then alter delete_required schemaCopy heap1
            else heap1 in
          match heap2 !! schemaCopy with
          | None => None
          | Some compiled => Some (SchemaGate schemaType mode compiled, heap2)
          end
      end
  end.

(** The middleware itself, run on a request.  Ajv validates [req.body] in
    place, so the request that leaves the middleware carries the body as
    the validation left it, on both branches. *)
Definition run_gate (g : Gate) (req : Request) : Outcome :=
  match g with
  | UnknownSchemaGate => NextErr (createError 422 "Unknown schema type") req
  | SchemaGate _ _ compiled =>
      let '(errors, body) := validate compiled (req_body req) in
      match errors with
      | [] => Next (with_body req body)
      | _ => NextErr (createError 422 (errorsText errors)) (with_body req body)
      end
  end.

(** ** authenticate_user.js *)

Definition stub_user : User :=
  {| user_id := "placeholder-user-id"; username := "stub_user";
     roles := ["user"] |}.

Definition authenticate_user (req : Request) : Outcome :=
  Next (with_user req stub_user).

(** ** mongo_utils.js *)

Definition validateObjectIdParamHandler (value : string) (req : Request)
  : Outcome :=
  if negb (ObjectId_isValid value)
  then Respond {| res_status := 400;
                  res_body := BodyJson (VObj [("error", VStr "Invalid ObjectId")]) |}
               req
  else Next req.

(** ** The document store *)

(** The model of the MongoDB collection the sources use, after the
    driver's documentation: a list of documents, each an object whose
    [_id] is an ObjectId. *)

Definition Collection : Type := list (object).

(** [db._db] as the handlers find it: a handle on a reachable database, or
    one on which every operation throws the given error (a null handle, a
    lost connection). *)
Inductive Db : Type :=
| Up (todos : Collection)
| Down (failure : HttpError).

Definition has_id (id : ObjectId) (doc : object) : bool :=
  match get_prop doc "_id" with
  | Some (VObjectId o) => bool_decide (o = id)
  | _ => false
  end.

(** [collection.findOne({ _id: id })]: the document, or [null]. *)
Definition findOne (c : Collection) (id : ObjectId) : option (object) :=
  List.find (has_id id) c.

(** MongoDB's duplicate-key write error. *)
Definition duplicate_key_error : HttpError :=
  newError "E11000 duplicate key error".

(** [collection.insertOne(doc)].  The driver gives a document without [_id]
    the generated one, writing it into the object it was passed; the
    server keeps [_id] as the first field.  The result is the inserted id,
    the document as the driver leaves it, and the collection; an [_id]
    already in the collection is a write error. *)
Definition insertOne (c : Collection) (generated : ObjectId) (doc : object)
  : HttpError + (value * object * Collection) :=
  let id := match get_prop doc "_id" with
            | Some v => v
            | None => VObjectId generated
            end in
  let doc' := match get_prop doc "_id" with
              | Some _ => doc
              | None => set_prop doc "_id" id
              end in
  let stored := ("_id", id) :: delete_prop doc' "_id" in
  if existsb (fun d => match get_prop d "_id" with
                       | Some v => value_eqb v id
                       | None => false
                       end) c
  then inl duplicate_key_error
  else inr (id, doc', c ++ [stored]).

(** The result of [updateOne]. *)
Record UpdateResult : Type := {
  matchedCount : nat;
  modifiedCount : nat;
}.

Fixpoint update_first (id : ObjectId) (upd : object) (c : Collection)
  : UpdateResult * Collection :=
  match c with
  | [] => ({| matchedCount := 0; modifiedCount := 0 |}, [])
  | doc :: rest =>
      if has_id id doc then
        let doc' := spread doc upd in
        ({| matchedCount := 1;
            modifiedCount := if object_eqb doc doc' then 0 else 1 |},
         doc' :: rest)
      else
        let '(r, rest') := update_first id upd rest in (r, doc :: rest')
  end.

(** [collection.updateOne({ _id: id }, { $set: upd })]: the first document
    with that id gets the fields of [upd]; it counts as modified only when
    a value changed. *)
Definition updateOne (c : Collection) (id : ObjectId) (upd : object)
  : UpdateResult * Collection :=
  update_first id upd c.

Fixpoint delete_first (id : ObjectId) (c : Collection) : nat * Collection :=
  match c with
  | [] => (0, [])
  | doc :: rest =>
      if has_id id doc then (1, rest)
      else let '(n, rest') := delete_first id rest in (n, doc :: rest')
  end.

(** [collection.deleteOne({ _id: id })]: the deleted count and what is
    left. *)
Definition deleteOne (c : Collection) (id : ObjectId) : nat * Collection :=
  delete_first id c.

(** ** todo_demo_module.js *)

(** What the world supplies to one request: the clock read by [new Date()]
    and the ObjectId the driver generates for an insert. *)
Record Ambient : Type := {
  now : Z;
  generated_id : ObjectId;
}.

(** The methods of [TodoDemoModule].  Each returns the promise's outcome
    (a rejection on the left) and the database after the call. *)
Definition listAll (db : Db) : (HttpError + list (object)) * Db :=
  match db with
  | Down e => (inl e, db)
  | Up c => (inr c, db)
  end.

(** [castObjectId] throws on a string that is no ObjectId. *)
Definition cast_failure : HttpError :=
  newError "hex string must be 24 characters".

Definition getById (db : Db) (id : string)
  : (HttpError + option (object)) * Db :=
  match db with
  | Down e => (inl e, db)
  | Up c =>
      match castObjectId id with
      | None => (inl cast_failure, db)
      | Some oid => (inr (findOne c oid), db)
      end
  end.

(** [create] returns [{ _id: result.insertedId, ...todo }]; the second
    component of the result is [todo] as the call leaves it. *)
Definition create (amb : Ambient) (db : Db) (todo : object)
  : (HttpError + object) * object * Db :=
  let todo1 := set_prop todo "date_created" (VDate (now amb)) in
  match db with
  | Down e => (inl e, todo1, db)
  | Up c =>
      match insertOne c (generated_id amb) todo1 with
      | inl e => (inl e, todo1, db)
      | inr (insertedId, todo2, c') =>
          (inr (spread [("_id", insertedId)] todo2), todo2, Up c')
      end
  end.

Definition update (db : Db) (id : string) (upd : object)
  : (HttpError + bool) * Db :=
  match db with
  | Down e => (inl e, db)
  | Up c =>
      match castObjectId id with
      | None => (inl cast_failure, db)
      | Some oid =>
          let '(result, c') := updateOne c oid upd in
          (inr (0 <? modifiedCount result)%nat, Up c')
      end
  end.

Definition delete (db : Db) (id : string) : (HttpError + bool) * Db :=
  match db with
  | Down e => (inl e, db)
  | Up c =>
      match castObjectId id with
      | None => (inl cast_failure, db)
      | Some oid =>
          let '(deletedCount, c') := deleteOne c oid in
          (inr (0 <? deletedCount)%nat, Up c')
      end
  end.

(** ** Configuration *)

(** [process.env.NODE_ENV], and the values of the getters of
    environment.js that the error page uses. *)
Record Config : Type := {
  NODE_ENV : option string;
  serviceName : string;
  useSSL : bool;
  serviceUrl : string;
  httpPort : nat;
  httpsPort : nat;
}.

(** [v || d] on an environment variable: unset and empty both give [d]. *)
Definition or_default (v : option string) (d : string) : string :=
  match v with
  | Some s => if String.eqb s "" then d else s
  | None => d
  end.

(** environment.js: [env.environment]. *)
Definition environment (cfg : Config) : string :=
  or_default (NODE_ENV cfg) "production".

(** Express: the application setting [env], which the sources read with
    [req.app.get("env")] and never set. *)
Definition app_get_env (cfg : Config) : string :=
  or_default (NODE_ENV cfg) "development".

(** ** Routes and the application *)

(** error_utils.js: [getErrorTemplateParams(err, req)], on the three fields
    of [err] it reads. *)
Definition getErrorTemplateParams (cfg : Config)
    (status : option StatusField) (msg : string) (stk : StackField)
    (req : Request) : TemplateParams :=
  {| title := serviceName cfg +:+ " - Error";
     status_code := status;
     heading := serviceName cfg +:+ " - Error";
     request :=
       req_method req +:+ " " +:+ (if useSSL cfg then "https" else "http")
       +:+ "://" +:+ serviceUrl cfg +:+ ":"
       +:+ pretty (if useSSL cfg then httpsPort cfg else httpPort cfg)
       +:+ req_originalUrl req;
     tp_message := msg;
     stack := stk |}.

(** [err.status || 500] *)
Definition status_or_500 (err : HttpError) : nat :=
  match err_status err with
  | Some 0 => 500
  | Some n => n
  | None => 500
  end.

Definition stack_field (err : HttpError) : StackField :=
  match err_stack err with
  | Some s => StackText s
  | None => StackUndefined
  end.

(** app.js: the central error handler.  A property whose value is
    [undefined] is not written by [res.json]. *)
Definition error_handler (cfg : Config) (err : HttpError) (req : Request)
  : Response :=
  if req_accepts_json req then
    {| res_status := status_or_500 err;
       res_body :=
         BodyJson (VObj [("error",
           VObj (("message", VStr (err_message err)) ::
                 (if String.eqb (app_get_env cfg) "development"
                  then match err_stack err with
                       | Some s => [("stack", VStr s)]
                       | None => []
                       end
                  else [])))]) |}
  else
    let params :=
      if String.eqb (environment cfg) "development"
      then getErrorTemplateParams cfg (StatusNumber <$> err_status err)
             (err_message err) (stack_field err) req
      else getErrorTemplateParams cfg None "Your request is in error."
             StackEmptyArray req in
    {| res_status := status_or_500 err; res_body := BodyRender "error" params |}.

(** The stages a request can go through. *)
Inductive Stage : Type :=
| StParam | StAuth | StValidate | StHandler | StNotFound | StErrorHandler.

#[global] Instance Stage_eq_dec : EqDecision Stage.
Proof. solve_decision. Defined.

Definition Middleware : Type := Request -> Db -> Outcome * Db.

Definition json_response (status : nat) (v : value) : Response :=
  {| res_status := status; res_body := BodyJson v |}.

(** todo_demo_routes_index.js: the handlers. *)
Definition list_handler : Middleware := fun req db =>
  match listAll db with
  | (inr all, db') => (Respond (json_response 200 (VArr (map VObj all))) req, db')
  | (inl err, db') => (NextErr err req, db')
  end.

Definition get_handler (id : string) : Middleware := fun req db =>
  match getById db id with
  | (inr None, db') => (NextErr (createError 404 "Todo not found") req, db')
  | (inr (Some todo), db') => (Respond (json_response 200 (VObj todo)) req, db')
  | (inl err, db') => (NextErr err req, db')
  end.

(** A body that is no object cannot get past the validator in front of
    the two handlers below; [not_an_object] stands for whatever the store
    call would throw on one. *)
Definition not_an_object : HttpError := newError "document must be an object".

Definition post_handler (amb : Ambient) : Middleware := fun req db =>
  match req_body req with
  | VObj todo =>
      match create amb db todo with
      | (inr newTodo, todo', db') =>
          (Respond (json_response 201 (VObj newTodo)) (with_body req (VObj todo')), db')
      | (inl err, todo', db') => (NextErr err (with_body req (VObj todo')), db')
      end
  | _ => (NextErr not_an_object req, db)
  end.

Definition put_handler (id : string) : Middleware := fun req db =>
  match req_body req with
  | VObj upd =>
      match update db id upd with
      | (inr false, db') =>
          (NextErr (createError 404 "Todo not found or not modified") req, db')
      | (inr true, db') => (Respond (sendStatus 204) req, db')
      | (inl err, db') => (NextErr err req, db')
      end
  | _ => (NextErr not_an_object req, db)
  end.

Definition delete_handler (id : string) : Middleware := fun req db =>
  match delete db id with
  | (inr false, db') => (NextErr (createError 404 "Todo not found") req, db')
  | (inr true, db') => (Respond (sendStatus 204) req, db')
  | (inl err, db') => (NextErr err req, db')
  end.

(** diagnostic_routes_index.js *)
Definition health_check : Middleware := fun req db =>
  match db with
  | Up _ => (Respond (sendStatus 200) req, db)
  | Down _ => (Respond (sendStatus 503) req, db)
  end.

Definition diagnostics_enabled (cfg : Config) : bool :=
  String.eqb (environment cfg) "development" || String.eqb (environment cfg) "test".

Definition throw_error (cfg : Config) : Middleware := fun req db =>
  if negb (diagnostics_enabled cfg)
  then (Respond (sendStatus 404) req, db)
  else (NextErr (newError "💥 Uncaught test exception from /v1/throw_error") req, db).

Definition user_value (u : User) : value :=
  VObj [("id", VStr (user_id u)); ("username", VStr (username u));
        ("roles", VArr (map VStr (roles u)))].

Definition auth_test (cfg : Config) : Middleware := fun req db =>
  if negb (diagnostics_enabled cfg)
  then (Respond (sendStatus 404) req, db)
  else (Respond (json_response 200
          (VObj match req_user req with
                | Some u => [("authenticated_user", user_value u)]
                | None => []
                end)) req, db).

(** html_routes_index.js *)
Definition error_test (cfg : Config) : Middleware := fun req db =>
  if diagnostics_enabled cfg then
    let msg := "This is a test of the error reporting system." in
    (Respond {| res_status := 200;
                res_body := BodyRender "error"
                  (getErrorTemplateParams cfg (Some (StatusString "500")) msg
                     (StackText (capture_stack msg)) req) |} req, db)
  else (NextErr (createError 404 "Not Found") req, db).

(** The validators the todo routes close over.  They are built once, when
    the routes are registered: [getSchemaValidator("todo")] for POST, then
    [getSchemaValidator("todo", "partial")] for PUT. *)
Record Validators : Type := {
  post_validator : Gate;
  put_validator : Gate;
}.

Definition register_todo_routes (heap : gmap loc Schema)
  : option (Validators * gmap loc Schema) :=
  match getSchemaValidator schema "todo" "strict" heap with
  | None => None
  | Some (g_post, heap1) =>
      match getSchemaValidator schema "todo" "partial" heap1 with
      | None => None
      | Some (g_put, heap2) =>
          Some ({| post_validator := g_post; put_validator := g_put |}, heap2)
      end
  end.

Definition lift (f : Request -> Outcome) : Middleware :=
  fun req db => (f req, db).

(** The stack Express runs for each route: the [app.param("id", ...)]
    callback first where the path has [:id], then the route's middleware
    from left to right. *)
Definition route_stack (cfg : Config) (v : Validators) (amb : Ambient)
    (e : Endpoint) : list (Stage * Middleware) :=
  match e with
  | GetTodos =>
      [(StAuth, lift authenticate_user); (StHandler, list_handler)]
  | GetTodo id =>
      [(StParam, lift (validateObjectIdParamHandler id));
       (StAuth, lift authenticate_user); (StHandler, get_handler id)]
  | PostTodo =>
      [(StAuth, lift authenticate_user);
       (StValidate, lift (run_gate (post_validator v)));
       (StHandler, post_handler amb)]
  | PutTodo id =>
      [(StParam, lift (validateObjectIdParamHandler id));
       (StAuth, lift authenticate_user);
       (StValidate, lift (run_gate (put_validator v)));
       (StHandler, put_handler id)]
  | DeleteTodo id =>
      [(StParam, lift (validateObjectIdParamHandler id));
       (StAuth, lift authenticate_user); (StHandler, delete_handler id)]
  | HealthCheck => [(StHandler, health_check)]
  | ThrowError => [(StHandler, throw_error cfg)]
  | AuthTest => [(StAuth, lift authenticate_user); (StHandler, auth_test cfg)]
  | ErrorTest => [(StHandler, error_test cfg)]
  | Unrouted => []
  end.

(** Express runs a stack from left to right; a stage is reached only when
    every stage before it called [next()]. *)
Fixpoint run_stack (stack : list (Stage * Middleware)) (req : Request) (db : Db)
  : Outcome * Db * list Stage :=
  match stack with
  | [] => (Next req, db, [])
  | (name, m) :: rest =>
      match m req db with
      | (Next req', db') =>
          let '(o, db'', trace) := run_stack rest req' db' in
          (o, db'', name :: trace)
      | (o, db') => (o, db', [name])
      end
  end.

(** app.js: a request that no route answers reaches the 404 handler, which
    forwards [createError(404)]; every forwarded error reaches the central
    error handler.  The result is the response, the database, and the
    stages the request went through. *)
Definition handle (cfg : Config) (v : Validators) (amb : Ambient)
    (req : Request) (db : Db) : Response * Db * list Stage :=
  match run_stack (route_stack cfg v amb (req_endpoint req)) req db with
  | (Respond res _, db', trace) => (res, db', trace)
  | (NextErr err req', db', trace) =>
      (error_handler cfg err req', db', trace ++ [StErrorHandler])
  | (Next req', db', trace) =>
      (error_handler cfg (createError 404 "Not Found") req', db',
       trace ++ [StNotFound; StErrorHandler])
  end.

(** ** Reading messages *)

(** [hay.includes(needle)], the way the tests match a message against a
    literal pattern. *)
Fixpoint includes (needle hay : string) : bool :=
  String.prefix needle hay ||
  match hay with
  | EmptyString => false
  | String _ rest => includes needle rest
  end.

(** The JSON envelope of an error response: [{ error: { message, stack? } }]. *)
Definition is_envelope (b : Body) : bool :=
  match b with
  | BodyJson (VObj [("error", VObj [("message", VStr _)])]) => true
  | BodyJson (VObj [("error", VObj [("message", VStr _); ("stack", VStr _)])]) => true
  | _ => false
  end.

(** A middleware answers with a 422 error whose message has [phrase] in it. *)
Definition fails_422_naming (g : Gate) (req : Request) (phrase : string) : Prop :=
  exists msg req',
    run_gate g req = NextErr (createError 422 msg) req' /\
    includes phrase msg = true.

(** A run of calls [getSchemaValidator(schemaType, mode)], one after the
    other on the same heap (the event loop runs one call at a time). *)
Fixpoint compile_all (reg : gmap string loc) (calls : list (string * string))
    (heap : gmap loc Schema) : option (list Gate * gmap loc Schema) :=
  match calls with
  | [] => Some ([], heap)
  | (schemaType, mode) :: rest =>
      match getSchemaValidator reg schemaType mode heap with
      | None => None
      | Some (g, heap1) =>
          match compile_all reg rest heap1 with
          | None => None
          | Some (gs, heap2) => Some (g :: gs, heap2)
          end
      end
  end.

(** Every registered name refers to an object of the heap. *)
Definition registry_in_heap (reg : gmap string loc) (heap : gmap loc Schema) : Prop :=
  forall name l, reg !! name = Some l -> is_Some (heap !! l).

(** The requests a route answers by itself when they fail, without the
    central error handler: a malformed identifier, a health check on a
    database that does not answer, a diagnostic route outside development
    and test. *)
Definition responds_directly (cfg : Config) (req : Request) (db : Db) : bool :=
  match req_endpoint req with
  | GetTodo id | PutTodo id | DeleteTodo id => negb (ObjectId_isValid id)
  | HealthCheck => match db with Down _ => true | Up _ => false end
  | ThrowError | AuthTest => negb (diagnostics_enabled cfg)
  | _ => false
  end.

(** A middleware that, when it answers by itself, answers with a success,
    and otherwise passes the request on (to the next stage or to the error
    handler) with its [Accept] header as it was. *)
Definition good_outcome (req : Request) (o : Outcome) : Prop :=
  match o with
  | Next r | NextErr _ r => req_accepts_json r = req_accepts_json req
  | Respond res _ => res_status res < 400
  end.

Definition well_behaved (m : Middleware) : Prop :=
  forall req db, good_outcome req (fst (m req db)).

(** The message an error response shows: the [message] of the JSON
    envelope, or the message on the error page. *)
Definition shown_message (b : Body) : option string :=
  match b with
  | BodyJson (VObj (("error", VObj (("message", VStr m) :: _)) :: _)) => Some m
  | BodyRender _ params => Some (tp_message params)
  | _ => None
  end.

(** The stages of a stack run one after the other as long as each calls
    [next()]: the request and the database the last one passes on, or
    [None] when one of them did not call [next()]. *)
Fixpoint thread_next (stack : list (Stage * Middleware)) (req : Request) (db : Db)
  : option (Request * Db) :=
  match stack with
  | [] => Some (req, db)
  | (_, m) :: rest =>
      match m req db with
      | (Next req', db') => thread_next rest req' db'
      | _ => None
      end
  end.

(** ** app.js: what runs before the routes *)

(** What the middleware mounted before the routes finds when a request
    arrives: how many requests the rate limiter has already counted for
    the client in the current window, and the error [express.json] (or
    [express.urlencoded]) forwards when it cannot read the body. *)
Record Arrival : Type := {
  earlier_hits : nat;
  parse_failure : option HttpError;
}.

(** The stages of the application: the rate limiter, the body parsers, and
    the stages from the routes on. *)
Inductive AppStage : Type :=
| RateLimiter
| BodyParser
| Later (s : Stage).

(** app.js: [rateLimit({ windowMs: 15 * 60 * 1000, max: 100, message })].
    express-rate-limit counts the request, then answers 429 with the
    message itself when the count is above [max]. *)
Definition rate_limit_max : nat := 100.

Definition rate_limited (arr : Arrival) : bool :=
  (rate_limit_max <? S (earlier_hits arr))%nat.

Definition too_many_requests : Response :=
  {| res_status := 429;
     res_body :=
       BodyText "Too many requests from this IP, please try again later." |}.

(** app.js, from the rate limiter on: the limiter, the body parsers, then
    the routes, the 404 handler and the central error handler ([handle]).
    Helmet and CORS only set headers, and a request a static file answers
    has no endpoint here. *)
Definition serve (cfg : Config) (v : Validators) (amb : Ambient)
    (arr : Arrival) (req : Request) (db : Db) : Response * Db * list AppStage :=
  if rate_limited arr then (too_many_requests, db, [RateLimiter])
  else match parse_failure arr with
       | Some err =>
           (error_handler cfg err req, db,
            [RateLimiter; BodyParser; Later StErrorHandler])
       | None =>
           let '(res, db', trace) := handle cfg v amb req db in
           (res, db', RateLimiter :: BodyParser :: map Later trace)
       end.

(** The failing requests that are answered without the central error
    handler: those the rate limiter turns away and, among the others that
    reach the routes, those a route answers by itself. *)
Definition answered_outside_error_handler (cfg : Config) (arr : Arrival)
    (req : Request) (db : Db) : bool :=
  rate_limited arr ||
  match parse_failure arr with
  | Some _ => false
  | None => responds_directly cfg req db
  end.

(** The [_id] of each document of a collection, in order. *)
Definition ids (c : Collection) : list (option value) :=
  map (fun d => get_prop d "_id") c.

(** ** mongo_utils.js: [newObjectId] *)

Definition hexdigit_of_Z (n : Z) : hexdigit :=
  match (n mod 16)%Z with
  | 0 => H0 | 1 => H1 | 2 => H2 | 3 => H3 | 4 => H4 | 5 => H5 | 6 => H6
  | 7 => H7 | 8 => H8 | 9 => H9 | 10 => HA | 11 => HB | 12 => HC
  | 13 => HD | 14 => HE | _ => HF
  end%Z.

(** [ObjectId.createFromTime(time)] of the MongoDB driver: the time in
    seconds as four bytes, most significant first, then eight zero
    bytes. *)
Definition createFromTime (seconds : Z) : ObjectId :=
  map (fun i => hexdigit_of_Z (seconds / 16 ^ i)%Z) [7; 6; 5; 4; 3; 2; 1; 0]%Z
  ++ repeat H0 16.

(** [newObjectId()], from what [Date.now()] returns (milliseconds). *)
Definition newObjectId (date_now : Z) : ObjectId :=
  createFromTime (date_now / 1000)%Z.

(** ** db.js: the connection URI *)

(** The variables of [process.env] that db.js reaches through the getters
    of environment.js, and [DB_URI], which the README documents. *)
Record ProcessEnv : Type := {
  DB_URI : option string;
  DB_URL : option string;
  DB_PORT : option string;
  DB_USER_NAME : option string;
  DB_PASSWORD : option string;
}.

(** environment.js: the database getters. *)
Definition dbUrl (penv : ProcessEnv) : string := or_default (DB_URL penv) "localhost".
Definition dbPort (penv : ProcessEnv) : string := or_default (DB_PORT penv) "27017".
Definition dbUsername (penv : ProcessEnv) : string := or_default (DB_USER_NAME penv) "".
Definition dbPassword (penv : ProcessEnv) : string := or_default (DB_PASSWORD penv) "".

(** The URI the constructor of [Db] hands to [MongoClient].  The class of
    environment.js has no getter [dbUri], so [env.dbUri] is [undefined] and
    the conditional always takes its second branch.  [encodeURIComponent]
    is JavaScript's. *)
Definition mongo_uri (encodeURIComponent : string -> string) (penv : ProcessEnv)
  : string :=
  let user := if String.eqb (dbUsername penv) "" then ""
              else encodeURIComponent (dbUsername penv) in
  let pass := if String.eqb (dbPassword penv) "" then ""
              else encodeURIComponent (dbPassword penv) in
  let auth := if String.eqb user "" then ""
              else if String.eqb pass "" then ""
              else user +:+ ":" +:+ pass +:+ "@" in
  "mongodb://" +:+ auth +:+ dbUrl penv +:+ ":" +:+ dbPort penv.

Definition with_DB_URI (penv : ProcessEnv) (uri : option string) : ProcessEnv :=
  {| DB_URI := uri; DB_URL := DB_URL penv; DB_PORT := DB_PORT penv;
     DB_USER_NAME := DB_USER_NAME penv; DB_PASSWORD := DB_PASSWORD penv |}.

(** * Properties *)

(** ** Strings *)

Lemma append_nil_l (b : string) : "" +:+ b = b.
Proof. reflexivity. Qed.

Lemma append_cons (c : ascii) (a b : string) :
  String c a +:+ b = String c (a +:+ b).
Proof. reflexivity. Qed.

Lemma append_nil_r (a : string) : a +:+ "" = a.
Proof.
  induction a as [|c a IH]; [reflexivity|].
  rewrite append_cons, IH. reflexivity.
Qed.

Lemma prefix_app (a b : string) : String.prefix a (a +:+ b) = true.
Proof.
  induction a as [|c a IH].
  - rewrite append_nil_l. by destruct b.
  - rewrite append_cons. simpl.
    destruct (Ascii.ascii_dec c c); [exact IH | congruence].
Qed.

Lemma prefix_app_l (a b c : string) :
  String.prefix a b = true -> String.prefix a (b +:+ c) = true.
Proof.
  revert b. induction a as [|x a IH]; intros b Hp.
  - by destruct (b +:+ c).
  - destruct b as [|y b]; [discriminate|].
    rewrite append_cons. simpl in *.
    destruct (Ascii.ascii_dec x y); [by apply IH | discriminate].
Qed.

Lemma includes_prefix (needle hay : string) :
  String.prefix needle hay = true -> includes needle hay = true.
Proof. intros Hp. destruct hay; simpl in *; rewrite Hp; reflexivity. Qed.

Lemma includes_append_l (needle a b : string) :
  includes needle a = true -> includes needle (a +:+ b) = true.
Proof.
  induction a as [|c a IH]; intros Hi.
  - simpl in Hi. rewrite orb_false_r in Hi.
    apply includes_prefix. by apply (prefix_app_l needle "" b).
  - simpl in Hi. apply orb_true_iff in Hi as [Hp | Hr].
    + apply includes_prefix. by apply prefix_app_l.
    + rewrite append_cons. simpl. rewrite (IH Hr). apply orb_true_r.
Qed.

Lemma includes_append_r (needle a b : string) :
  includes needle b = true -> includes needle (a +:+ b) = true.
Proof.
  induction a as [|c a IH]; intros Hi.
  - by rewrite append_nil_l.
  - rewrite append_cons. simpl. rewrite (IH Hi). apply orb_true_r.
Qed.

Lemma includes_refl (needle : string) : includes needle needle = true.
Proof.
  apply includes_prefix. rewrite <- (append_nil_r needle) at 2. apply prefix_app.
Qed.

(** A message of the error list shows in the text [errorsText] builds. *)
Lemma errorsText_includes (errors : list ErrorObject) (e : ErrorObject) :
  In e errors -> includes (message e) (errorsText errors) = true.
Proof.
  intros Hin. destruct errors as [|e0 errors]; [destruct Hin|].
  unfold errorsText. remember (e0 :: errors) as l eqn:El. clear El e0 errors.
  set (line := fun e0 : ErrorObject =>
                 "data" +:+ instancePath e0 +:+ " " +:+ message e0).
  assert (Hx : forall y, includes (message y) (line y) = true).
  { intros y. unfold line.
    do 3 apply includes_append_r. apply includes_refl. }
  induction l as [|x l IH]; [destruct Hin|].
  destruct l as [|y l].
  - destruct Hin as [-> | []]. apply Hx.
  - change (join ", " (map line (x :: y :: l)))
      with (line x +:+ ", " +:+ join ", " (map line (y :: l))).
    destruct Hin as [-> | Hin].
    + apply includes_append_l, Hx.
    + do 2 apply includes_append_r. by apply IH.
Qed.

(** ** Objects *)

Lemma get_prop_None (o : object) (k : string) :
  get_prop o k = None <-> ~ In k (keys o).
Proof.
  induction o as [|[k' v] o IH]; simpl; [tauto|].
  destruct (String.eqb_spec k' k) as [-> | Hne]; split.
  - discriminate.
  - intros Hn. exfalso. apply Hn. by left.
  - intros Hg [? | Hin]; [done | by apply IH].
  - intros Hn. apply IH. tauto.
Qed.

Lemma get_prop_Some_In (o : object) (k : string) (v : value) :
  get_prop o k = Some v -> In k (keys o).
Proof.
  intros Hg. destruct (in_dec string_dec k (keys o)) as [|Hn]; [done|].
  apply get_prop_None in Hn. congruence.
Qed.

Lemma get_set_prop_eq (o : object) (k : string) (v : value) :
  get_prop (set_prop o k v) k = Some v.
Proof.
  induction o as [|[k' v'] o IH]; simpl.
  - by rewrite String.eqb_refl.
  - destruct (String.eqb k' k) eqn:E; simpl; rewrite E; [done | exact IH].
Qed.

Lemma get_set_prop_ne (o : object) (k k' : string) (v : value) :
  k <> k' -> get_prop (set_prop o k v) k' = get_prop o k'.
Proof.
  intros Hne. induction o as [|[k0 v0] o IH]; simpl.
  - destruct (String.eqb_spec k k'); [done | reflexivity].
  - destruct (String.eqb_spec k0 k) as [-> | Hk]; simpl.
    + destruct (String.eqb_spec k k'); [done | reflexivity].
    + destruct (String.eqb k0 k'); [reflexivity | exact IH].
Qed.

Lemma keys_set_prop_present (o : object) (k : string) (v : value) :
  In k (keys o) -> keys (set_prop o k v) = keys o.
Proof.
  induction o as [|[k' v'] o IH]; simpl; [tauto|].
  intros Hin. destruct (String.eqb_spec k' k) as [-> | Hne]; simpl; [done|].
  f_equal. apply IH. destruct Hin; [done | assumption].
Qed.

Lemma keys_set_prop_absent (o : object) (k : string) (v : value) :
  ~ In k (keys o) -> set_prop o k v = o ++ [(k, v)].
Proof.
  induction o as [|[k' v'] o IH]; simpl; [done|].
  intros Hn. destruct (String.eqb_spec k' k) as [-> | Hne]; [tauto|].
  f_equal. apply IH. tauto.
Qed.

Lemma delete_prop_absent (o : object) (k : string) :
  ~ In k (keys o) -> delete_prop o k = o.
Proof.
  induction o as [|[k' v'] o IH]; simpl; [done|].
  intros Hn. destruct (String.eqb_spec k' k) as [-> | Hne]; [tauto|].
  f_equal. apply IH. tauto.
Qed.

Lemma is_declared_In (props : list (string * JSONType)) (k : string) :
  is_declared props k = true <-> In k (map fst props).
Proof.
  unfold is_declared. rewrite existsb_exists. split.
  - intros (x & Hin & Heq). apply String.eqb_eq in Heq. by subst.
  - intros Hin. exists k. split; [done | apply String.eqb_refl].
Qed.

(** ** The validator *)

(** The properties pass keeps the keys of the data. *)
Lemma apply_properties_keys (props : list (string * JSONType)) (o : object) :
  keys (snd (apply_properties props o)) = keys o.
Proof.
  revert o. induction props as [|[p t] props IH]; intros o; simpl; [done|].
  destruct (get_prop o p) as [v|] eqn:Hg.
  2:{ destruct (inherited p); [|apply IH].
      specialize (IH o). destruct (apply_properties props o). exact IH. }
  destruct (checkDataType t v); [apply IH|].
  destruct (coerceData t v) as [c|].
  - rewrite IH. apply keys_set_prop_present. by eapply get_prop_Some_In.
  - specialize (IH o). destruct (apply_properties props o). exact IH.
Qed.

(** It leaves the properties the schema does not declare alone. *)
Lemma apply_properties_undeclared
    (props : list (string * JSONType)) (o : object) (k : string) :
  ~ In k (map fst props) ->
  get_prop (snd (apply_properties props o)) k = get_prop o k.
Proof.
  revert o. induction props as [|[p t] props IH]; intros o Hn; simpl; [done|].
  simpl in Hn.
  assert (Hp : p <> k) by tauto. assert (Hr : ~ In k (map fst props)) by tauto.
  destruct (get_prop o p) as [v|] eqn:Hg.
  2:{ destruct (inherited p); [|by apply IH].
      specialize (IH o Hr). destruct (apply_properties props o). exact IH. }
  destruct (checkDataType t v); [by apply IH|].
  destruct (coerceData t v) as [c|].
  - rewrite IH by done. by apply get_set_prop_ne.
  - specialize (IH o Hr). destruct (apply_properties props o). exact IH.
Qed.

(** A declared property ends up holding [coerce_field] of what it held. *)
Lemma apply_properties_declared
    (props : list (string * JSONType)) (o : object) (k : string) (t : JSONType) :
  NoDup (map fst props) -> In (k, t) props ->
  get_prop (snd (apply_properties props o)) k = coerce_field t <$> get_prop o k.
Proof.
  revert o. induction props as [|[p t'] props IH]; intros o Hnd Hin; [destruct Hin|].
  simpl in Hnd. apply NoDup_cons in Hnd as [Hp Hnd]. simpl.
  destruct Hin as [Heq | Hin].
  - inversion Heq; subst p t'; clear Heq.
    assert (Hk : ~ In k (map fst props)).
    { intros Hin. apply Hp. by apply list_elem_of_In. }
    unfold coerce_field.
    destruct (get_prop o k) as [v|] eqn:Hg; simpl.
    + destruct (checkDataType t v).
      * rewrite apply_properties_undeclared by done. exact Hg.
      * destruct (coerceData t v) as [c|].
        -- rewrite apply_properties_undeclared by done. apply get_set_prop_eq.
        -- pose proof (apply_properties_undeclared props o k Hk) as Hu.
           destruct (apply_properties props o). simpl in *. congruence.
    + destruct (inherited k).
      * pose proof (apply_properties_undeclared props o k Hk) as Hu.
        destruct (apply_properties props o). simpl in *. congruence.
      * rewrite apply_properties_undeclared by done. exact Hg.
  - assert (Hne : p <> k).
    { intros ->. apply Hp. apply list_elem_of_In.
      change k with (fst (k, t)). by apply in_map. }
    destruct (get_prop o p) as [v|] eqn:Hg.
    2:{ destruct (inherited p); [|by apply IH].
        specialize (IH o Hnd Hin). destruct (apply_properties props o). exact IH. }
    destruct (checkDataType t' v); [by apply IH|].
    destruct (coerceData t' v) as [c|].
    + rewrite IH by done. by rewrite get_set_prop_ne.
    + specialize (IH o Hnd Hin). destruct (apply_properties props o). exact IH.
Qed.

(** The properties pass reports no error exactly when no declared property
    that is present holds a value that cannot be coerced. *)
Lemma apply_properties_no_error (props : list (string * JSONType)) (o : object) :
  NoDup (map fst props) ->
  Forall (fun p => inherited p = false) (map fst props) ->
  fst (apply_properties props o) = [] <->
  (forall k t v, In (k, t) props -> get_prop o k = Some v -> type_error t v = false).
Proof.
  revert o. induction props as [|[p t'] props IH]; intros o Hnd Hown.
  - simpl. split; [intros _ k t v [] | done].
  - simpl in Hnd. apply NoDup_cons in Hnd as [Hp Hnd].
    simpl in Hown. apply Forall_cons in Hown as [Hown1 Hown].
    simpl in Hown1.
    assert (Hfresh : forall k t, In (k, t) props -> p <> k).
    { intros k t Hin ->. apply Hp, list_elem_of_In.
      change k with (fst (k, t)). by apply in_map. }
    simpl. destruct (get_prop o p) as [v|] eqn:Hg.
    + destruct (checkDataType t' v) eqn:Hc.
      * rewrite IH by done. split.
        -- intros Hall k t w [Heq | Hin] Hk; [|by eapply Hall].
           inversion Heq; subst. unfold type_error.
           rewrite Hg in Hk. inversion Hk; subst. by rewrite Hc.
        -- intros Hall k t w Hin. apply Hall. by right.
      * destruct (coerceData t' v) as [c|] eqn:Hco.
        -- rewrite IH by done. split.
           ++ intros Hall k t w [Heq | Hin] Hk.
              ** inversion Heq; subst. unfold type_error.
                 rewrite Hg in Hk. inversion Hk; subst. by rewrite Hc, Hco.
              ** apply (Hall k t w Hin).
                 rewrite get_set_prop_ne; [done | by eapply Hfresh].
           ++ intros Hall k t w Hin Hk. apply (Hall k t w); [by right|].
              rewrite get_set_prop_ne in Hk; [done | by eapply Hfresh].
        -- destruct (apply_properties props o) as [errs o'] eqn:Ha. simpl.
           split; [discriminate|].
           intros Hall. specialize (Hall p t' v (or_introl eq_refl) Hg).
           unfold type_error in Hall. by rewrite Hc, Hco in Hall.
    + rewrite Hown1. rewrite IH by done. split.
      * intros Hall k t w [Heq | Hin] Hk; [|by eapply Hall].
        inversion Heq; subst. congruence.
      * intros Hall k t w Hin. apply Hall. by right.
Qed.

Lemma additional_errors_nil (props : list (string * JSONType)) (o : object) :
  additional_errors true props o = [] <->
  (forall k, In k (keys o) -> In k (map fst props)).
Proof.
  unfold additional_errors. induction o as [|[k v] o IH]; simpl.
  - split; [intros _ k [] | done].
  - destruct (is_declared props k) eqn:Hd; simpl.
    + apply is_declared_In in Hd. rewrite IH. split.
      * intros Hall k' [<- | Hin]; [done | by apply Hall].
      * intros Hall k' Hin. apply Hall. by right.
    + split; [discriminate|]. intros Hall.
      assert (Hk : In k (map fst props)) by (apply Hall; by left).
      apply is_declared_In in Hk. congruence.
Qed.

Lemma additional_errors_In (props : list (string * JSONType)) (o : object) (k : string) :
  In k (keys o) -> ~ In k (map fst props) ->
  In {| instancePath := ""; message := "must NOT have additional properties" |}
     (additional_errors true props o).
Proof.
  intros Hin Hnd. unfold additional_errors. apply in_flat_map.
  apply in_map_iff in Hin as ([k' v] & <- & Hin). exists (k', v). split; [done|].
  simpl. destruct (is_declared props k') eqn:Hd; [|by left].
  apply is_declared_In in Hd. done.
Qed.

Lemma required_errors_In (props : list string) (o : object) (p : string) :
  In p props -> get_prop o p = None -> inherited p = false ->
  In {| instancePath := "";
        message := "must have required property '" +:+ p +:+ "'" |}
     (required_errors (Some props) o).
Proof.
  intros Hin Hg Hown. unfold required_errors. apply in_flat_map.
  exists p. split; [done|]. rewrite Hg, Hown. by left.
Qed.

(** The result of the validator on an object, keyword by keyword. *)
Lemma validate_object (s : Schema) (o : object) :
  validate s (VObj o)
  = (required_errors (required s) o
     ++ additional_errors (negb (additionalProperties s)) (properties s) o
     ++ fst (apply_properties (properties s) o),
     VObj (snd (apply_properties (properties s) o))).
Proof.
  unfold validate. by destruct (apply_properties (properties s) o).
Qed.

(** What the middleware does, from the error list of the validator. *)
Lemma run_gate_errors (schemaType mode : string) (s : Schema) (req : Request)
    (e : ErrorObject) :
  In e (fst (validate s (req_body req))) ->
  exists msg,
    run_gate (SchemaGate schemaType mode s) req
    = NextErr (createError 422 msg) (with_body req (snd (validate s (req_body req))))
    /\ includes (message e) msg = true.
Proof.
  intros Hin. unfold run_gate.
  destruct (validate s (req_body req)) as [errors body] eqn:Hv. simpl in *.
  destruct errors as [|e0 errors]; [destruct Hin|].
  eexists. split; [reflexivity|]. by apply errorsText_includes.
Qed.

Lemma run_gate_accepts (schemaType mode : string) (s : Schema) (req : Request) :
  fst (validate s (req_body req)) = [] <->
  run_gate (SchemaGate schemaType mode s) req
  = Next (with_body req (snd (validate s (req_body req)))).
Proof.
  unfold run_gate.
  destruct (validate s (req_body req)) as [errors body]. simpl.
  destruct errors; split; intros Heq; try done.
Qed.

(** ** The validator factory and the heap *)

Lemma getSchemaValidator_known (reg : gmap string loc) (name mode : string)
    (heap : gmap loc Schema) (l : loc) (s : Schema) :
  reg !! name = Some l -> heap !! l = Some s ->
  getSchemaValidator reg name mode heap
  = Some (SchemaGate name mode
            (if String.eqb mode "partial" then delete_required s else s),
          <[fresh (dom heap) :=
              if String.eqb mode "partial" then delete_required s else s]> heap).
Proof.
  intros Hreg Hheap. unfold getSchemaValidator. rewrite Hreg, Hheap.
  destruct (String.eqb mode "partial").
  - rewrite alter_insert_eq, lookup_insert_eq. reflexivity.
  - rewrite lookup_insert_eq. reflexivity.
Qed.

Lemma getSchemaValidator_unknown (reg : gmap string loc) (name mode : string)
    (heap : gmap loc Schema) :
  reg !! name = None ->
  getSchemaValidator reg name mode heap = Some (UnknownSchemaGate, heap).
Proof. intros Hreg. unfold getSchemaValidator. by rewrite Hreg. Qed.

(** No call changes an object that was in the heap before it. *)
Lemma getSchemaValidator_preserves (reg : gmap string loc) (name mode : string)
    (heap heap' : gmap loc Schema) (g : Gate) :
  getSchemaValidator reg name mode heap = Some (g, heap') ->
  forall l s, heap !! l = Some s -> heap' !! l = Some s.
Proof.
  intros Hget l s Hl.
  destruct (reg !! name) as [l0|] eqn:Hreg.
  - destruct (heap !! l0) as [s0|] eqn:Hl0.
    + rewrite (getSchemaValidator_known _ _ _ _ _ _ Hreg Hl0) in Hget.
      inversion Hget; subst. rewrite lookup_insert_ne; [done|].
      intros Heq. pose proof (is_fresh (dom heap)) as Hf.
      rewrite Heq in Hf. apply Hf, elem_of_dom. by exists s.
    + unfold getSchemaValidator in Hget. by rewrite Hreg, Hl0 in Hget.
  - rewrite getSchemaValidator_unknown in Hget by done. by inversion Hget; subst.
Qed.

Lemma todo_registered : schema !! "todo" = Some todo_schema_ref.
Proof. apply lookup_singleton_eq. Qed.

Lemma todo_in_initial_heap : initial_heap !! todo_schema_ref = Some todo_schema.
Proof. apply lookup_singleton_eq. Qed.

Lemma todo_properties_NoDup : NoDup (map fst (properties todo_schema)).
Proof.
  apply (bool_decide_unpack _). by vm_compute.
Qed.

Lemma todo_properties_own :
  Forall (fun p => inherited p = false) (map fst (properties todo_schema)).
Proof. repeat constructor. Qed.

Lemma todo_required_own (p : string) :
  In p ["task"; "priority"; "assigned_to"; "is_complete"] -> inherited p = false.
Proof. intros [<- | [<- | [<- | [<- | []]]]]; reflexivity. Qed.

(** The validators the todo routes get when the application starts. *)
Lemma register_todo_routes_initial :
  exists heap',
    register_todo_routes initial_heap
    = Some ({| post_validator := SchemaGate "todo" "strict" todo_schema;
               put_validator :=
                 SchemaGate "todo" "partial" (delete_required todo_schema) |},
            heap').
Proof.
  unfold register_todo_routes.
  pose proof (getSchemaValidator_known schema "todo" "strict" initial_heap _ _
                todo_registered todo_in_initial_heap) as H1.
  simpl in H1. rewrite H1.
  assert (H2 : (<[fresh (dom initial_heap) := todo_schema]> initial_heap)
                 !! todo_schema_ref = Some todo_schema).
  { eapply getSchemaValidator_preserves; [exact H1 | exact todo_in_initial_heap]. }
  pose proof (getSchemaValidator_known schema "todo" "partial" _ _ _
                todo_registered H2) as H3.
  simpl in H3. rewrite H3. eexists. reflexivity.
Qed.

(** ** Claims *)

(** C1: a payload with a field outside the todo schema's declared
    properties [task], [priority], [assigned_to], [is_complete] fails
    validation with a 422 error whose message names additional properties,
    whatever the mode: the schema a partial-mode validator is compiled from
    is the todo schema without [required], still closed. *)
Theorem additional_property_rejected
    (mode : string) (req : Request) (o : object) (k : string) :
  req_body req = VObj o ->
  In k (keys o) ->
  ~ In k ["task"; "priority"; "assigned_to"; "is_complete"] ->
  exists compiled heap',
    getSchemaValidator schema "todo" mode initial_heap
    = Some (SchemaGate "todo" mode compiled, heap') /\
    (mode = "partial" -> compiled = delete_required todo_schema) /\
    properties compiled = properties todo_schema /\
    additionalProperties compiled = false /\
    fails_422_naming (SchemaGate "todo" mode compiled) req
      "must NOT have additional properties".
Proof.
  intros Hbody Hin Hout.
  rewrite (getSchemaValidator_known schema "todo" mode initial_heap _ _
             todo_registered todo_in_initial_heap).
  set (compiled := if String.eqb mode "partial"
                   then delete_required todo_schema else todo_schema).
  exists compiled, (<[fresh (dom initial_heap) := compiled]> initial_heap).
  assert (Hp : properties compiled = properties todo_schema)
    by (unfold compiled; by destruct (String.eqb mode "partial")).
  assert (Ha : additionalProperties compiled = false)
    by (unfold compiled; by destruct (String.eqb mode "partial")).
  split; [reflexivity|]. split.
  { intros ->. reflexivity. }
  split; [exact Hp|]. split; [exact Ha|].
  destruct (run_gate_errors "todo" mode compiled req
              {| instancePath := ""; message := "must NOT have additional properties" |})
    as (msg & Hrun & Hinc).
  { rewrite Hbody. simpl.
    destruct (apply_properties (properties compiled) o) as [e_props o'].
    simpl. apply in_or_app. right. apply in_or_app. left.
    rewrite Ha, Hp. simpl negb. by apply (additional_errors_In _ _ k). }
  exists msg. eexists. split; [exact Hrun | exact Hinc].
Qed.

(** C3: however many validators are compiled, in whatever modes, no object
    that was in the heap before is changed, the registered descriptors
    among them; so a strict-mode validator compiled afterwards is compiled
    from the descriptor as registered, and rejects a body that lacks one of
    its required properties (one that no object inherits). *)
Theorem registry_never_mutated
    (reg : gmap string loc) (heap : gmap loc Schema)
    (calls : list (string * string)) :
  registry_in_heap reg heap ->
  exists gates heap',
    compile_all reg calls heap = Some (gates, heap') /\
    (forall l s, heap !! l = Some s -> heap' !! l = Some s) /\
    (forall name l s, reg !! name = Some l -> heap !! l = Some s ->
       exists heap'',
         getSchemaValidator reg name "strict" heap'
         = Some (SchemaGate name "strict" s, heap'') /\
         forall req o props p,
           req_body req = VObj o -> required s = Some props ->
           In p props -> get_prop o p = None -> inherited p = false ->
           fails_422_naming (SchemaGate name "strict" s) req
             ("must have required property '" +:+ p +:+ "'")).
Proof.
  intros Hwf.
  assert (Hrun : exists gates heap',
             compile_all reg calls heap = Some (gates, heap') /\
             (forall l s, heap !! l = Some s -> heap' !! l = Some s)).
  { revert heap Hwf. induction calls as [|[name mode] calls IH]; intros heap Hwf.
    - exists [], heap. by split.
    - simpl.
      assert (Hstep : exists g heap1,
                 getSchemaValidator reg name mode heap = Some (g, heap1)).
      { destruct (reg !! name) as [l|] eqn:Hreg.
        - destruct (Hwf _ _ Hreg) as [s Hs].
          rewrite (getSchemaValidator_known _ _ _ _ _ _ Hreg Hs). eauto.
        - rewrite getSchemaValidator_unknown by done. eauto. }
      destruct Hstep as (g & heap1 & Hstep). rewrite Hstep.
      pose proof (getSchemaValidator_preserves _ _ _ _ _ _ Hstep) as Hpres.
      destruct (IH heap1) as (gs & heap2 & Hall & Hpres2).
      { intros n l Hn. destruct (Hwf _ _ Hn) as [s Hs]. exists s. by apply Hpres. }
      rewrite Hall. exists (g :: gs), heap2. split; [reflexivity|].
      intros l s Hl. by apply Hpres2, Hpres. }
  destruct Hrun as (gates & heap' & Hall & Hpres).
  exists gates, heap'. split; [exact Hall|]. split; [exact Hpres|].
  intros name l s Hreg Hs.
  pose proof (getSchemaValidator_known reg name "strict" heap' l s Hreg (Hpres _ _ Hs))
    as Hk.
  simpl in Hk. eexists. split; [exact Hk|].
  intros req o props p Hbody Hreq Hin Hmiss Hown.
  destruct (run_gate_errors name "strict" s req
              {| instancePath := "";
                 message := "must have required property '" +:+ p +:+ "'" |})
    as (msg & Hrun & Hinc).
  { rewrite Hbody. simpl.
    destruct (apply_properties (properties s) o) as [e_props o'].
    simpl. apply in_or_app. left. rewrite Hreq. by apply required_errors_In. }
  exists msg. eexists. split; [exact Hrun | exact Hinc].
Qed.

(** C4: on a payload that lacks one of the required fields of the todo
    schema, the strict-mode validator fails with a 422 error whose message
    names the required property; the partial-mode validator lets the
    payload through exactly when it has no undeclared field and no declared
    field of a type that cannot be coerced, so a missing required field
    alone never fails it. *)
Theorem missing_required_field (req : Request) (o : object) (p : string) :
  req_body req = VObj o ->
  In p ["task"; "priority"; "assigned_to"; "is_complete"] ->
  get_prop o p = None ->
  exists v heap',
    register_todo_routes initial_heap = Some (v, heap') /\
    fails_422_naming (post_validator v) req
      ("must have required property '" +:+ p +:+ "'") /\
    (run_gate (put_validator v) req
     = Next (with_body req (snd (validate (delete_required todo_schema) (VObj o))))
     <->
     (forall k, In k (keys o) ->
                In k ["task"; "priority"; "assigned_to"; "is_complete"]) /\
     (forall k t w, In (k, t) (properties todo_schema) ->
                    get_prop o k = Some w -> type_error t w = false)).
Proof.
  intros Hbody Hin Hmiss.
  destruct register_todo_routes_initial as [heap' Hreg].
  eexists _, heap'. split; [exact Hreg|]. cbn [post_validator put_validator]. split.
  - destruct (run_gate_errors "todo" "strict" todo_schema req
                {| instancePath := "";
                   message := "must have required property '" +:+ p +:+ "'" |})
      as (msg & Hrun & Hinc).
    { rewrite Hbody, validate_object. cbn [fst].
      apply in_or_app. left.
      apply (required_errors_In ["task"; "priority"; "assigned_to"; "is_complete"]);
        [done | done | by apply todo_required_own]. }
    exists msg. eexists. split; [exact Hrun | exact Hinc].
  - rewrite <- Hbody.
    rewrite <- (run_gate_accepts "todo" "partial" (delete_required todo_schema) req).
    rewrite Hbody, validate_object. cbn [fst].
    change (required (delete_required todo_schema)) with (@None (list string)).
    change (properties (delete_required todo_schema)) with (properties todo_schema).
    change (negb (additionalProperties (delete_required todo_schema))) with true.
    change (required_errors None o) with (@nil ErrorObject).
    rewrite app_nil_l.
    pose proof (apply_properties_no_error (properties todo_schema) o
                  todo_properties_NoDup todo_properties_own) as Hprops.
    pose proof (additional_errors_nil (properties todo_schema) o) as Hadd.
    change (map fst (properties todo_schema))
      with ["task"; "priority"; "assigned_to"; "is_complete"] in Hadd.
    split.
    + intros Hnil. apply app_eq_nil in Hnil as [Ha Hp].
      split; [by apply Hadd | by apply Hprops].
    + intros [Ha Hp]. apply Hadd in Ha. apply Hprops in Hp.
      by rewrite Ha, Hp.
Qed.

(** C10: the authentication middleware attaches the fixed identity to the
    request and calls [next()]; it never answers the request itself and
    never forwards an error. *)
Theorem authenticate_user_never_rejects (req : Request) :
  authenticate_user req = Next (with_user req stub_user) /\
  req_user (with_user req stub_user)
  = Some {| user_id := "placeholder-user-id"; username := "stub_user";
            roles := ["user"] |} /\
  (forall res req', authenticate_user req <> Respond res req') /\
  (forall err req', authenticate_user req <> NextErr err req').
Proof. repeat split; intros; discriminate. Qed.

(** ** The central error handler *)

Lemma app_get_env_development (cfg : Config) :
  app_get_env cfg = "development" <->
  NODE_ENV cfg = None \/ NODE_ENV cfg = Some "" \/ NODE_ENV cfg = Some "development".
Proof.
  unfold app_get_env, or_default. destruct (NODE_ENV cfg) as [s|].
  - destruct (String.eqb_spec s "") as [-> | Hne].
    + split; [auto | done].
    + split.
      * intros ->. auto.
      * intros [? | [Heq | Heq]]; [done | | ]; inversion Heq; congruence.
  - split; [auto | done].
Qed.

Lemma error_handler_envelope (cfg : Config) (err : HttpError) (req : Request) :
  req_accepts_json req = true ->
  is_envelope (res_body (error_handler cfg err req)) = true.
Proof.
  intros Hj. unfold error_handler. rewrite Hj. simpl.
  destruct (String.eqb (app_get_env cfg) "development"); [|reflexivity].
  by destruct (err_stack err).
Qed.

(** The message the central error handler shows: the message of the error
    to a client that accepts JSON and, to the others, in development mode;
    the fixed text otherwise. *)
Lemma shown_message_error_handler (cfg : Config) (err : HttpError) (req : Request) :
  shown_message (res_body (error_handler cfg err req))
  = Some (if req_accepts_json req || String.eqb (environment cfg) "development"
          then err_message err else "Your request is in error.").
Proof.
  unfold error_handler. destruct (req_accepts_json req); [reflexivity|].
  by destruct (String.eqb (environment cfg) "development").
Qed.

(** What the JSON branch of the central error handler does: an error that
    carries no status is answered with 500; the body is
    [{ error: { message } }], with [stack] as a second field of [error]
    exactly under Express's [env] setting [development], that is when
    [NODE_ENV] is [development], unset or empty. *)
Lemma error_handler_json (cfg : Config) (err : HttpError) (req : Request) :
  (err_status err = None -> res_status (error_handler cfg err req) = 500) /\
  (req_accepts_json req = true ->
   exists extra,
     res_body (error_handler cfg err req)
     = BodyJson (VObj [("error",
                        VObj (("message", VStr (err_message err)) :: extra))]) /\
     (extra = [] \/
      exists s, extra = [("stack", VStr s)] /\ err_stack err = Some s /\
                (NODE_ENV cfg = None \/ NODE_ENV cfg = Some "" \/
                 NODE_ENV cfg = Some "development")) /\
     (forall mode, NODE_ENV cfg = Some mode -> mode <> "" ->
                   mode <> "development" -> extra = [])).
Proof.
  split.
  - intros Hst. unfold error_handler, status_or_500. rewrite Hst.
    by destruct (req_accepts_json req).
  - intros Hj. unfold error_handler. rewrite Hj. cbn [res_body].
    destruct (String.eqb_spec (app_get_env cfg) "development") as [Hdev | Hno].
    + apply app_get_env_development in Hdev.
      destruct (err_stack err) as [s|] eqn:Hs.
      * exists [("stack", VStr s)]. split; [reflexivity|]. split.
        -- right. exists s. auto.
        -- intros mode Hm Hne Hnd. exfalso.
           destruct Hdev as [? | [? | ?]]; congruence.
      * exists []. split; [reflexivity|]. split; [by left | done].
    + exists []. split; [reflexivity|]. split; [by left | done].
Qed.

(** ** The stack of a route *)

Lemma handle_malformed_id (cfg : Config) (v : Validators)
    (amb : Ambient) (req : Request) (db : Db) (id : string) :
  req_endpoint req = GetTodo id \/ req_endpoint req = PutTodo id \/
  req_endpoint req = DeleteTodo id ->
  ObjectId_isValid id = false ->
  handle cfg v amb req db
  = ({| res_status := 400;
        res_body := BodyJson (VObj [("error", VStr "Invalid ObjectId")]) |},
     db, [StParam]).
Proof.
  intros Hroute Hbad. unfold handle.
  destruct Hroute as [-> | [-> | ->]]; simpl;
    unfold lift, validateObjectIdParamHandler; rewrite Hbad; reflexivity.
Qed.

(** C8: on the routes with an identifier (get by id, update, delete), a
    request whose identifier is not a well-formed ObjectId is answered 400
    with [{ error: "Invalid ObjectId" }] by the parameter callback alone:
    neither the validator nor the handler (nor any other stage) runs, and
    the database is left as it was. *)
Theorem malformed_id_short_circuits (cfg : Config) (v : Validators)
    (amb : Ambient) (req : Request) (db : Db) (id : string) :
  req_endpoint req = GetTodo id \/ req_endpoint req = PutTodo id \/
  req_endpoint req = DeleteTodo id ->
  ObjectId_isValid id = false ->
  handle cfg v amb req db
  = ({| res_status := 400;
        res_body := BodyJson (VObj [("error", VStr "Invalid ObjectId")]) |},
     db, [StParam]) /\
  ~ In StValidate (snd (handle cfg v amb req db)) /\
  ~ In StHandler (snd (handle cfg v amb req db)).
Proof.
  intros Hroute Hbad. rewrite (handle_malformed_id cfg v amb req db id Hroute Hbad).
  split; [reflexivity|]. split; simpl; intuition discriminate.
Qed.

(** ** Coercion in place *)

(** C2, as the code has it: the validator coerces inside the request body
    itself, and what it wrote stays whether the body passes or fails.  The
    request that leaves the middleware, on either branch, carries a body
    with the same fields in the same order, in which every field the
    schema does not declare is as it was and every declared field holds
    [coerce_field] of what it held; a body that is no object is left as it
    is. *)
Theorem gate_coerces_in_place (schemaType mode : string) (s : Schema)
    (req : Request) :
  NoDup (map fst (properties s)) ->
  exists body',
    (run_gate (SchemaGate schemaType mode s) req = Next (with_body req body') \/
     exists msg, run_gate (SchemaGate schemaType mode s) req
                 = NextErr (createError 422 msg) (with_body req body')) /\
    match req_body req with
    | VObj o =>
        exists o', body' = VObj o' /\ keys o' = keys o /\
          (forall k, ~ In k (map fst (properties s)) ->
                     get_prop o' k = get_prop o k) /\
          (forall k t, In (k, t) (properties s) ->
                       get_prop o' k = coerce_field t <$> get_prop o k)
    | other => body' = other
    end.
Proof.
  intros Hnd. exists (snd (validate s (req_body req))). split.
  - unfold run_gate. destruct (validate s (req_body req)) as [errors body].
    destruct errors; [by left | right; eauto].
  - destruct (req_body req) as [| | | | |o| |]; try reflexivity.
    rewrite validate_object. cbn [snd].
    exists (snd (apply_properties (properties s) o)).
    split; [reflexivity|]. split; [apply apply_properties_keys|]. split.
    + intros k Hk. by apply apply_properties_undeclared.
    + intros k t Hin. by apply apply_properties_declared.
Qed.

(** ** Equality of values *)

Fixpoint value_eqb_refl (v : value) {struct v} : value_eqb v v = true.
Proof.
  destruct v as [|b|n|str|items|fields|t|o]; simpl.
  - reflexivity.
  - by destruct b.
  - by apply bool_decide_eq_true.
  - apply String.eqb_refl.
  - induction items as [|x items IH]; [reflexivity|].
    rewrite (value_eqb_refl x). exact IH.
  - induction fields as [|[k x] fields IH]; [reflexivity|].
    rewrite String.eqb_refl, (value_eqb_refl x). exact IH.
  - apply Z.eqb_refl.
  - by apply bool_decide_eq_true.
Qed.

Lemma object_eqb_refl (o : object) : object_eqb o o = true.
Proof. apply (value_eqb_refl (VObj o)). Qed.

Lemma value_eqb_ObjectId (v : value) (id : ObjectId) :
  value_eqb v (VObjectId id) = true -> v = VObjectId id.
Proof.
  destruct v; simpl; try discriminate.
  intros Hb. apply bool_decide_eq_true in Hb. by subst.
Qed.

(** ** ObjectIds and their hexadecimal form *)

Lemma hex_of_ascii_of_hex (d : hexdigit) : hex_of_ascii (ascii_of_hex d) = Some d.
Proof. by destruct d. Qed.

Lemma parse_hex_toHexString (o : ObjectId) : parse_hex (toHexString o) = Some o.
Proof.
  induction o as [|d o IH]; [reflexivity|].
  simpl. by rewrite hex_of_ascii_of_hex, IH.
Qed.

Lemma length_toHexString (o : ObjectId) : String.length (toHexString o) = length o.
Proof. induction o as [|d o IH]; simpl; [reflexivity | by rewrite IH]. Qed.

(** The hexadecimal form of an ObjectId reads back as the ObjectId. *)
Lemma castObjectId_toHexString (o : ObjectId) :
  length o = 24 -> castObjectId (toHexString o) = Some o.
Proof.
  intros Hlen. unfold castObjectId, createFromHexString.
  rewrite length_toHexString, Hlen. apply parse_hex_toHexString.
Qed.

Lemma castObjectId_isValid (id : string) (oid : ObjectId) :
  castObjectId id = Some oid -> ObjectId_isValid id = true.
Proof.
  unfold castObjectId, ObjectId_isValid. by intros ->.
Qed.

(** ** More on objects *)

Lemma keys_app (a b : object) : keys (a ++ b) = keys a ++ keys b.
Proof. apply map_app. Qed.

Lemma spread_app (a b1 b2 : object) :
  spread a (b1 ++ b2) = spread (spread a b1) b2.
Proof. apply fold_left_app. Qed.

(** Spreading an object whose keys are new adds its properties at the end. *)
Lemma spread_disjoint (b a : object) :
  NoDup (keys b) ->
  (forall k, In k (keys b) -> ~ In k (keys a)) ->
  spread a b = a ++ b.
Proof.
  revert a. induction b as [|[k v] b IH]; intros a Hnd Hdis.
  - by rewrite app_nil_r.
  - simpl in Hnd. apply NoDup_cons in Hnd as [Hk Hnd].
    change (spread a ((k, v) :: b)) with (spread (set_prop a k v) b).
    rewrite keys_set_prop_absent by (apply Hdis; by left).
    rewrite IH; [by rewrite <- app_assoc | done |].
    intros k' Hin. rewrite keys_app. intros Hin'.
    apply in_app_or in Hin' as [Hin' | [<- | []]].
    + apply (Hdis k'); [by right | done].
    + apply Hk. by apply list_elem_of_In.
Qed.

Lemma delete_prop_last (o : object) (k : string) (v : value) :
  ~ In k (keys o) -> delete_prop (o ++ [(k, v)]) k = o.
Proof.
  induction o as [|[k' v'] o IH]; simpl; intros Hn.
  - by rewrite String.eqb_refl.
  - destruct (String.eqb_spec k' k) as [-> | Hne]; [tauto|].
    f_equal. apply IH. tauto.
Qed.

Lemma get_prop_app_absent (a b : object) (k : string) :
  ~ In k (keys a) -> get_prop (a ++ b) k = get_prop b k.
Proof.
  induction a as [|[k' v'] a IH]; simpl; intros Hn; [done|].
  destruct (String.eqb_spec k' k) as [-> | Hne]; [tauto|]. apply IH. tauto.
Qed.

(** A well-typed object goes through the properties pass untouched. *)
Lemma apply_properties_well_typed (props : list (string * JSONType)) (o : object) :
  Forall (fun p => inherited p = false) (map fst props) ->
  (forall k t w, In (k, t) props -> get_prop o k = Some w ->
                 checkDataType t w = true) ->
  apply_properties props o = ([], o).
Proof.
  induction props as [|[p t] props IH]; intros Hown Hall; [reflexivity|].
  simpl in Hown. apply Forall_cons in Hown as [Hown1 Hown]. simpl in Hown1.
  simpl. destruct (get_prop o p) as [w|] eqn:Hg.
  - rewrite (Hall p t w) by (done || by left).
    apply IH; [done|]. intros k t' w' Hin. apply Hall. by right.
  - rewrite Hown1. apply IH; [done|]. intros k t' w' Hin. apply Hall. by right.
Qed.

(** ** The store *)

Lemma find_app_None {A : Type} (f : A -> bool) (l1 l2 : list A) :
  Forall (fun x => f x = false) l1 -> List.find f (l1 ++ l2) = List.find f l2.
Proof.
  induction 1 as [|x l1 Hx _ IH]; [reflexivity|]. simpl. by rewrite Hx.
Qed.

Lemma modifiedCount_found (c : Collection) (id : ObjectId) (upd doc : object) :
  findOne c id = Some doc ->
  modifiedCount (fst (updateOne c id upd))
  = if object_eqb doc (spread doc upd) then 0 else 1.
Proof.
  unfold findOne, updateOne. induction c as [|d c IH]; simpl; [discriminate|].
  destruct (has_id id d) eqn:Hd.
  - intros Heq. inversion Heq; subst. reflexivity.
  - intros Hf. specialize (IH Hf).
    destruct (update_first id upd c) as [r c']. exact IH.
Qed.

Lemma modifiedCount_missing (c : Collection) (id : ObjectId) (upd : object) :
  findOne c id = None -> modifiedCount (fst (updateOne c id upd)) = 0.
Proof.
  unfold findOne, updateOne. induction c as [|d c IH]; simpl; [done|].
  destruct (has_id id d) eqn:Hd; [discriminate|].
  intros Hf. specialize (IH Hf).
  destruct (update_first id upd c) as [r c']. exact IH.
Qed.

(** Creating a todo from an object that has neither [date_created] nor
    [_id], with a generated id that is new to the collection. *)
Lemma create_fresh (amb : Ambient) (c : Collection) (todo : object) :
  NoDup (keys todo) ->
  ~ In "date_created" (keys todo) -> ~ In "_id" (keys todo) ->
  Forall (fun d => has_id (generated_id amb) d = false) c ->
  let doc := ("_id", VObjectId (generated_id amb))
             :: todo ++ [("date_created", VDate (now amb))] in
  exists todo', create amb (Up c) todo = (inr doc, todo', Up (c ++ [doc])).
Proof.
  intros Hnd Hdate Hid Hfresh doc. unfold create.
  rewrite keys_set_prop_absent by done.
  set (todo1 := todo ++ [("date_created", VDate (now amb))]).
  assert (Hid1 : ~ In "_id" (keys todo1)).
  { unfold todo1. rewrite keys_app. intros Hin.
    apply in_app_or in Hin as [? | [Heq | []]]; [done | discriminate]. }
  assert (Hnd1 : NoDup (keys todo1)).
  { unfold todo1. rewrite keys_app. apply NoDup_app. split; [done|]. split.
    - intros k Hk Hk'. apply list_elem_of_In in Hk, Hk'.
      destruct Hk' as [<- | []]. done.
    - apply NoDup_singleton. }
  unfold insertOne.
  assert (Hget : get_prop todo1 "_id" = None) by by apply get_prop_None.
  rewrite Hget. rewrite keys_set_prop_absent by done.
  rewrite delete_prop_last by done.
  assert (Hex : existsb (fun d => match get_prop d "_id" with
                                  | Some v => value_eqb v (VObjectId (generated_id amb))
                                  | None => false
                                  end) c = false).
  { apply not_true_is_false. intros Hex. apply existsb_exists in Hex as (d & Hd & He).
    rewrite Forall_forall in Hfresh. apply list_elem_of_In in Hd.
    specialize (Hfresh d Hd).
    unfold has_id in Hfresh. destruct (get_prop d "_id") as [w|]; [|done].
    apply value_eqb_ObjectId in He. subst w.
    rewrite bool_decide_eq_false in Hfresh. done. }
  rewrite Hex.
  assert (Hs : spread [("_id", VObjectId (generated_id amb))]
                 (todo1 ++ [("_id", VObjectId (generated_id amb))]) = doc).
  { rewrite spread_app.
    rewrite (spread_disjoint todo1 [("_id", VObjectId (generated_id amb))] Hnd1).
    - unfold spread. simpl. reflexivity.
    - intros k Hk [<- | []]. done. }
  rewrite Hs. eexists. reflexivity.
Qed.

(** ** Running a stack *)

Lemma run_stack_next (name : Stage) (m : Middleware)
    (rest : list (Stage * Middleware)) (req req' : Request) (db db' : Db) :
  m req db = (Next req', db') ->
  run_stack ((name, m) :: rest) req db
  = (fst (fst (run_stack rest req' db')), snd (fst (run_stack rest req' db')),
     name :: snd (run_stack rest req' db')).
Proof.
  intros Hm. simpl. rewrite Hm. by destruct (run_stack rest req' db') as [[o d] t].
Qed.

Lemma run_stack_last (name : Stage) (m : Middleware) (req : Request) (db : Db) :
  forall o db', m req db = (o, db') -> (forall r, o <> Next r) ->
  run_stack [(name, m)] req db = (o, db', [name]).
Proof.
  intros o db' Hm Hno. simpl. rewrite Hm. destruct o; [by destruct (Hno req0)|done..].
Qed.

Lemma param_passes (id : string) (oid : ObjectId) (req : Request) (db : Db) :
  castObjectId id = Some oid ->
  lift (validateObjectIdParamHandler id) req db = (Next req, db).
Proof.
  intros Hc. unfold lift, validateObjectIdParamHandler.
  by rewrite (castObjectId_isValid _ _ Hc).
Qed.

Lemma gate_passes (schemaType mode : string) (s : Schema) (req : Request)
    (db : Db) (o : object) :
  req_body req = VObj o ->
  fst (validate s (VObj o)) = [] ->
  lift (run_gate (SchemaGate schemaType mode s)) req db
  = (Next (with_body req (VObj (snd (apply_properties (properties s) o)))), db).
Proof.
  intros Hbody Hok. unfold lift. f_equal.
  rewrite <- Hbody in Hok.
  rewrite (proj1 (run_gate_accepts schemaType mode s req) Hok).
  by rewrite Hbody, validate_object.
Qed.

(** The update route on a well-formed identifier and a body the
    partial-mode validator passes. *)
Lemma handle_put (cfg : Config) (v : Validators) (amb : Ambient) (req : Request)
    (id : string) (oid : ObjectId) (c : Collection) (o : object) (s : Schema) :
  req_endpoint req = PutTodo id ->
  castObjectId id = Some oid ->
  req_body req = VObj o ->
  put_validator v = SchemaGate "todo" "partial" s ->
  fst (validate s (VObj o)) = [] ->
  let upd := snd (apply_properties (properties s) o) in
  let result := fst (updateOne c oid upd) in
  handle cfg v amb req (Up c)
  = if (0 <? modifiedCount result)%nat
    then (sendStatus 204, Up (snd (updateOne c oid upd)),
          [StParam; StAuth; StValidate; StHandler])
    else (error_handler cfg (createError 404 "Todo not found or not modified")
            (with_body (with_user req stub_user) (VObj upd)),
          Up (snd (updateOne c oid upd)),
          [StParam; StAuth; StValidate; StHandler; StErrorHandler]).
Proof.
  intros Hroute Hcast Hbody Hput Hok upd result. unfold handle.
  rewrite Hroute. cbn [route_stack]. rewrite Hput.
  rewrite (run_stack_next _ _ _ _ _ _ _ (param_passes id oid req (Up c) Hcast)).
  rewrite (run_stack_next StAuth (lift authenticate_user) _ req
             (with_user req stub_user) (Up c) (Up c) eq_refl).
  rewrite (run_stack_next StValidate _ _ _ _ _ _
             (gate_passes "todo" "partial" s (with_user req stub_user) (Up c) o
                Hbody Hok)).
  fold upd.
  assert (Hh : put_handler id (with_body (with_user req stub_user) (VObj upd)) (Up c)
               = (if (0 <? modifiedCount result)%nat
                  then Respond (sendStatus 204)
                         (with_body (with_user req stub_user) (VObj upd))
                  else NextErr (createError 404 "Todo not found or not modified")
                         (with_body (with_user req stub_user) (VObj upd)),
                  Up (snd (updateOne c oid upd)))).
  { unfold put_handler, update. cbn [req_body with_body]. rewrite Hcast.
    unfold result. destruct (updateOne c oid upd) as [r c']. cbn [fst snd].
    by destruct (0 <? modifiedCount r)%nat. }
  rewrite (run_stack_last StHandler _ _ _ _ _ Hh).
  - cbn [fst snd]. by destruct (0 <? modifiedCount result)%nat.
  - intros r. by destruct (0 <? modifiedCount result)%nat.
Qed.

(** C7, as the code has it: an update request with a well-formed
    identifier and a body that passes partial-mode validation, on a
    database that answers, gets 204 exactly when the store reports a
    modified count above zero; otherwise it gets 404 from the central error
    handler, to which the handler forwards the error with exactly the
    message "Todo not found or not modified".  The response shows that
    message to a client that accepts JSON and, on the error page, in
    development mode; to a client that does not accept JSON outside
    development the page says "Your request is in error." instead.  An
    update that matches a document and changes none of its values is among
    the 404s. *)
Theorem update_204_iff_modified (cfg : Config) (amb : Ambient) (req : Request)
    (id : string) (oid : ObjectId) (c : Collection) (o : object) :
  req_endpoint req = PutTodo id ->
  castObjectId id = Some oid ->
  req_body req = VObj o ->
  fst (validate (delete_required todo_schema) (VObj o)) = [] ->
  exists v heap' upd,
    register_todo_routes initial_heap = Some (v, heap') /\
    snd (validate (delete_required todo_schema) (VObj o)) = VObj upd /\
    let result := fst (updateOne c oid upd) in
    let res := fst (fst (handle cfg v amb req (Up c))) in
    (res_status res = 204 <-> 0 < modifiedCount result) /\
    (0 < modifiedCount result -> res = sendStatus 204) /\
    (modifiedCount result = 0 ->
     res = error_handler cfg (createError 404 "Todo not found or not modified")
             (with_body (with_user req stub_user) (VObj upd)) /\
     res_status res = 404 /\
     shown_message (res_body res)
     = Some (if req_accepts_json req || String.eqb (environment cfg) "development"
             then "Todo not found or not modified"
             else "Your request is in error.")) /\
    (forall doc, findOne c oid = Some doc -> spread doc upd = doc ->
                 modifiedCount result = 0).
Proof.
  intros Hroute Hcast Hbody Hok.
  destruct register_todo_routes_initial as [heap' Hreg].
  set (v := {| post_validator := SchemaGate "todo" "strict" todo_schema;
               put_validator :=
                 SchemaGate "todo" "partial" (delete_required todo_schema) |}) in *.
  set (upd := snd (apply_properties (properties todo_schema) o)).
  exists v, heap', upd.
  split; [exact Hreg|].
  split; [by rewrite validate_object|].
  intros result res.
  pose proof (handle_put cfg v amb req id oid c o (delete_required todo_schema)
                Hroute Hcast Hbody eq_refl Hok) as Hh.
  cbv zeta in Hh. change (properties (delete_required todo_schema))
    with (properties todo_schema) in Hh. fold result in Hh.
  assert (Hst : forall e r,
             res_status (error_handler cfg (createError 404 e) r) = 404).
  { intros e r. unfold error_handler. by destruct (req_accepts_json r). }
  assert (Hsame : forall doc, findOne c oid = Some doc -> spread doc upd = doc ->
                              modifiedCount result = 0).
  { intros doc Hfind Hsame. unfold result.
    rewrite (modifiedCount_found _ _ _ _ Hfind), Hsame.
    by rewrite object_eqb_refl. }
  fold upd in Hh. fold result in Hh. unfold res. rewrite Hh.
  destruct (0 <? modifiedCount result)%nat eqn:Hm; cbn [fst].
  - apply Nat.ltb_lt in Hm. split; [|split; [|split]].
    + split; [intros _; exact Hm | reflexivity].
    + reflexivity.
    + intros Hz. lia.
    + exact Hsame.
  - apply Nat.ltb_ge in Hm. split; [|split; [|split]].
    + rewrite Hst. split; [discriminate | lia].
    + lia.
    + intros _. split; [reflexivity|]. split; [apply Hst|].
      rewrite shown_message_error_handler. reflexivity.
    + exact Hsame.
Qed.

(** ** Create, then fetch *)

(** What passes the strict validator has declared fields only. *)
Lemma strict_valid_keys (o : object) (k : string) :
  fst (validate todo_schema (VObj o)) = [] ->
  In k (keys o) -> In k ["task"; "priority"; "assigned_to"; "is_complete"].
Proof.
  rewrite validate_object. cbn [fst]. intros Hnil Hin.
  apply app_eq_nil in Hnil as [_ Hnil]. apply app_eq_nil in Hnil as [Hadd _].
  by apply (proj1 (additional_errors_nil (properties todo_schema) o) Hadd).
Qed.

(** C9, as the code has it: a payload the strict validator passes is stored
    as the validator left it (its fields coerced to their declared types,
    so unchanged when they already have them), after its fields the
    creation time read from the server's clock, before them the generated
    identifier; the create request answers 201 with that document, and a
    fetch by the hexadecimal form of the identifier answers 200 with the
    same document.  The payload itself has neither [date_created] nor
    [_id]: the closed schema rejects both. *)
Theorem create_then_fetch (cfg : Config) (amb amb2 : Ambient)
    (req req2 : Request) (c : Collection) (o : object) :
  req_endpoint req = PostTodo ->
  req_body req = VObj o ->
  NoDup (keys o) ->
  fst (validate todo_schema (VObj o)) = [] ->
  length (generated_id amb) = 24 ->
  Forall (fun d => has_id (generated_id amb) d = false) c ->
  req_endpoint req2 = GetTodo (toHexString (generated_id amb)) ->
  exists v heap' coerced,
    register_todo_routes initial_heap = Some (v, heap') /\
    snd (validate todo_schema (VObj o)) = VObj coerced /\
    keys coerced = keys o /\
    (forall k t, In (k, t) (properties todo_schema) ->
                 get_prop coerced k = coerce_field t <$> get_prop o k) /\
    ((forall k t w, In (k, t) (properties todo_schema) ->
                    get_prop o k = Some w -> checkDataType t w = true) ->
     coerced = o) /\
    ~ In "date_created" (keys o) /\ ~ In "_id" (keys o) /\
    let doc := ("_id", VObjectId (generated_id amb))
               :: coerced ++ [("date_created", VDate (now amb))] in
    handle cfg v amb req (Up c)
    = (json_response 201 (VObj doc), Up (c ++ [doc]),
       [StAuth; StValidate; StHandler]) /\
    handle cfg v amb2 req2 (Up (c ++ [doc]))
    = (json_response 200 (VObj doc), Up (c ++ [doc]),
       [StParam; StAuth; StHandler]).
Proof.
  intros Hroute Hbody Hnd Hok Hlen Hfresh Hroute2.
  destruct register_todo_routes_initial as [heap' Hreg].
  set (v := {| post_validator := SchemaGate "todo" "strict" todo_schema;
               put_validator :=
                 SchemaGate "todo" "partial" (delete_required todo_schema) |}) in *.
  set (coerced := snd (apply_properties (properties todo_schema) o)).
  assert (Hkeys : keys coerced = keys o) by apply apply_properties_keys.
  assert (Hdate : ~ In "date_created" (keys o)).
  { intros Hin. apply (strict_valid_keys o _ Hok) in Hin.
    simpl in Hin. intuition discriminate. }
  assert (Hid : ~ In "_id" (keys o)).
  { intros Hin. apply (strict_valid_keys o _ Hok) in Hin.
    simpl in Hin. intuition discriminate. }
  exists v, heap', coerced.
  split; [exact Hreg|]. split; [by rewrite validate_object|].
  split; [exact Hkeys|]. split.
  { intros k t Hin. apply apply_properties_declared; [apply todo_properties_NoDup | exact Hin]. }
  split.
  { intros Hty. unfold coerced.
    by rewrite (apply_properties_well_typed _ _ todo_properties_own Hty). }
  split; [exact Hdate|]. split; [exact Hid|].
  intros doc. split.
  - unfold handle. rewrite Hroute. cbn [route_stack post_validator v].
    rewrite (run_stack_next StAuth (lift authenticate_user) _ req
               (with_user req stub_user) (Up c) (Up c) eq_refl).
    rewrite (run_stack_next StValidate _ _ _ _ _ _
               (gate_passes "todo" "strict" todo_schema (with_user req stub_user)
                  (Up c) o Hbody Hok)).
    fold coerced.
    destruct (create_fresh amb c coerced) as [todo' Hcreate];
      [by rewrite Hkeys.. | exact Hfresh |].
    fold doc in Hcreate.
    assert (Hh : post_handler amb
                   (with_body (with_user req stub_user) (VObj coerced)) (Up c)
                 = (Respond (json_response 201 (VObj doc))
                      (with_body (with_body (with_user req stub_user) (VObj coerced))
                         (VObj todo')),
                    Up (c ++ [doc]))).
    { unfold post_handler. cbn [req_body with_body]. by rewrite Hcreate. }
    rewrite (run_stack_last StHandler _ _ _ _ _ Hh); [reflexivity | done].
  - unfold handle. rewrite Hroute2. cbn [route_stack].
    pose proof (castObjectId_toHexString _ Hlen) as Hcast.
    rewrite (run_stack_next _ _ _ _ _ _ _
               (param_passes _ _ req2 (Up (c ++ [doc])) Hcast)).
    rewrite (run_stack_next StAuth (lift authenticate_user) _ req2
               (with_user req2 stub_user) _ _ eq_refl).
    assert (Hh : get_handler (toHexString (generated_id amb))
                   (with_user req2 stub_user) (Up (c ++ [doc]))
                 = (Respond (json_response 200 (VObj doc)) (with_user req2 stub_user),
                    Up (c ++ [doc]))).
    { unfold get_handler, getById. rewrite Hcast. unfold findOne.
      rewrite find_app_None by exact Hfresh.
      simpl. unfold has_id. simpl. by rewrite bool_decide_eq_true_2. }
    rewrite (run_stack_last StHandler _ _ _ _ _ Hh); [reflexivity | done].
Qed.

(** ** Failures and the central error handler *)

Lemma run_stack_good (stack : list (Stage * Middleware)) :
  Forall (fun sm => well_behaved (snd sm)) stack ->
  forall req db, good_outcome req (fst (fst (run_stack stack req db))).
Proof.
  induction 1 as [|[name m] stack Hm _ IH]; intros req db; [reflexivity|].
  simpl. specialize (Hm req db). simpl in Hm.
  destruct (m req db) as [[r | err r | res r] db1]; simpl in *; try done.
  specialize (IH r db1).
  destruct (run_stack stack r db1) as [[o db2] tr]. simpl in *.
  destruct o; simpl in *; congruence.
Qed.

Lemma authenticate_user_good : well_behaved (lift authenticate_user).
Proof. by intros req db. Qed.

Lemma param_good (id : string) :
  ObjectId_isValid id = true -> well_behaved (lift (validateObjectIdParamHandler id)).
Proof.
  intros Hok req db. unfold lift, validateObjectIdParamHandler. by rewrite Hok.
Qed.

Lemma run_gate_good (g : Gate) : well_behaved (lift (run_gate g)).
Proof.
  intros req db. unfold lift, run_gate. destruct g as [|name mode s]; [done|].
  destruct (validate s (req_body req)) as [errors body]. by destruct errors.
Qed.

Lemma list_handler_good : well_behaved list_handler.
Proof.
  intros req db. unfold list_handler, listAll. destruct db; simpl; [lia | done].
Qed.

Lemma get_handler_good (id : string) : well_behaved (get_handler id).
Proof.
  intros req db. unfold get_handler, getById. destruct db as [c|e]; [|done].
  destruct (castObjectId id) as [oid|]; [|done].
  destruct (findOne c oid); simpl; [lia | done].
Qed.

Lemma post_handler_good (amb : Ambient) : well_behaved (post_handler amb).
Proof.
  intros req db. unfold post_handler.
  destruct (req_body req) as [| | | | |todo| |]; try done.
  destruct (create amb db todo) as [[[err | newTodo] todo'] db']; simpl; [done | lia].
Qed.

Lemma put_handler_good (id : string) : well_behaved (put_handler id).
Proof.
  intros req db. unfold put_handler.
  destruct (req_body req) as [| | | | |upd| |]; try done.
  destruct (update db id upd) as [[err | [|]] db']; simpl; [done | lia | done].
Qed.

Lemma delete_handler_good (id : string) : well_behaved (delete_handler id).
Proof.
  intros req db. unfold delete_handler.
  destruct (delete db id) as [[err | [|]] db']; simpl; [done | lia | done].
Qed.

Lemma todo_stacks_good (cfg : Config) (v : Validators) (amb : Ambient)
    (e : Endpoint) :
  match e with
  | GetTodos | PostTodo | Unrouted => True
  | GetTodo id | PutTodo id | DeleteTodo id => ObjectId_isValid id = true
  | _ => False
  end ->
  Forall (fun sm => well_behaved (snd sm)) (route_stack cfg v amb e).
Proof.
  destruct e; intros He; try (exfalso; exact He); simpl;
    repeat (apply Forall_cons_2); try apply Forall_nil_2; simpl;
    auto using authenticate_user_good, param_good, run_gate_good,
      list_handler_good, get_handler_good, post_handler_good,
      put_handler_good, delete_handler_good.
Qed.

(** From a final outcome that is good, what [handle] answers. *)
Lemma handle_good (cfg : Config) (v : Validators) (amb : Ambient)
    (req : Request) (db : Db) :
  good_outcome req
    (fst (fst (run_stack (route_stack cfg v amb (req_endpoint req)) req db))) ->
  400 <= res_status (fst (fst (handle cfg v amb req db))) ->
  In StErrorHandler (snd (handle cfg v amb req db)) /\
  (exists err req', fst (fst (handle cfg v amb req db)) = error_handler cfg err req') /\
  (req_accepts_json req = true ->
   is_envelope (res_body (fst (fst (handle cfg v amb req db)))) = true).
Proof.
  unfold handle.
  destruct (run_stack (route_stack cfg v amb (req_endpoint req)) req db)
    as [[[r | err r | res r] db'] trace]; simpl; intros Hgood Hfail.
  - split; [apply in_or_app; right; simpl; auto|]. split; [eauto|].
    intros Hj. apply error_handler_envelope. congruence.
  - split; [apply in_or_app; right; simpl; auto|]. split; [eauto|].
    intros Hj. apply error_handler_envelope. congruence.
  - lia.
Qed.

(** Among the requests that reach the routes: a failing request reaches the
    central error handler, and a client that accepts JSON gets the
    envelope, unless the route answers by itself (the malformed-identifier
    400, the health-check 503 and the 404 of a diagnostic route outside
    development and test). *)
Lemma failures_reach_error_handler (cfg : Config) (v : Validators)
    (amb : Ambient) (req : Request) (db : Db) :
  let res := fst (fst (handle cfg v amb req db)) in
  let trace := snd (handle cfg v amb req db) in
  if responds_directly cfg req db
  then 400 <= res_status res /\ ~ In StErrorHandler trace /\
       is_envelope (res_body res) = false
  else 400 <= res_status res ->
       In StErrorHandler trace /\
       (exists err req', res = error_handler cfg err req') /\
       (req_accepts_json req = true -> is_envelope (res_body res) = true).
Proof.
  intros res trace. unfold res, trace, responds_directly.
  destruct (req_endpoint req) as [|id| |id|id| | | | |] eqn:Hroute.
  - apply handle_good. rewrite Hroute.
    by apply run_stack_good, todo_stacks_good.
  - destruct (ObjectId_isValid id) eqn:Hid; simpl.
    + apply handle_good. rewrite Hroute. by apply run_stack_good, todo_stacks_good.
    + rewrite (handle_malformed_id cfg v amb req db id) by auto. simpl.
      split; [lia|]. split; [intuition discriminate | reflexivity].
  - apply handle_good. rewrite Hroute.
    by apply run_stack_good, todo_stacks_good.
  - destruct (ObjectId_isValid id) eqn:Hid; simpl.
    + apply handle_good. rewrite Hroute. by apply run_stack_good, todo_stacks_good.
    + rewrite (handle_malformed_id cfg v amb req db id) by auto. simpl.
      split; [lia|]. split; [intuition discriminate | reflexivity].
  - destruct (ObjectId_isValid id) eqn:Hid; simpl.
    + apply handle_good. rewrite Hroute. by apply run_stack_good, todo_stacks_good.
    + rewrite (handle_malformed_id cfg v amb req db id) by auto. simpl.
      split; [lia|]. split; [intuition discriminate | reflexivity].
  - unfold handle. rewrite Hroute. destruct db as [c|e]; simpl.
    + lia.
    + split; [lia|]. split; [intuition discriminate | reflexivity].
  - unfold handle. rewrite Hroute. simpl. unfold throw_error.
    destruct (diagnostics_enabled cfg); simpl.
    + intros _. split; [auto|]. split; [eauto|].
      intros Hj. by apply error_handler_envelope.
    + split; [lia|]. split; [intuition discriminate | reflexivity].
  - unfold handle. rewrite Hroute. simpl. unfold auth_test.
    destruct (diagnostics_enabled cfg); simpl.
    + lia.
    + split; [lia|]. split; [intuition discriminate | reflexivity].
  - unfold handle. rewrite Hroute. simpl. unfold error_test.
    destruct (diagnostics_enabled cfg); simpl.
    + lia.
    + intros _. split; [auto|]. split; [eauto|].
      intros Hj. by apply error_handler_envelope.
  - apply handle_good. rewrite Hroute.
    by apply run_stack_good, todo_stacks_good.
Qed.

Lemma In_Later (st : Stage) (trace : list Stage) :
  In (Later st) (RateLimiter :: BodyParser :: map Later trace) <-> In st trace.
Proof.
  simpl. rewrite in_map_iff. split.
  - intros [? | [? | (x & Heq & Hin)]]; [discriminate | discriminate |].
    by inversion Heq; subst.
  - intros Hin. right. right. by exists st.
Qed.

(** C6, as the code has it: a failing request reaches the central error
    handler, and a client that accepts JSON gets the envelope, when it is
    a body the parsers could not read, or a request on the todo routes
    with a well-formed identifier or none, on the diagnostic routes in
    development and test, on the error-page test route or on no route at
    all.  The other failures are answered where they arise, without the
    error handler and not in the envelope: the rate limiter's 429 once a
    client is past 100 requests in the window (before any route runs), the
    malformed-identifier 400, the health-check 503, and the 404 of a
    diagnostic route outside development and test. *)
Theorem failing_requests_and_the_error_handler (cfg : Config) (v : Validators)
    (amb : Ambient) (arr : Arrival) (req : Request) (db : Db) :
  let res := fst (fst (serve cfg v amb arr req db)) in
  let trace := snd (serve cfg v amb arr req db) in
  (100 <= earlier_hits arr ->
   serve cfg v amb arr req db = (too_many_requests, db, [RateLimiter])) /\
  if answered_outside_error_handler cfg arr req db
  then 400 <= res_status res /\ ~ In (Later StErrorHandler) trace /\
       is_envelope (res_body res) = false
  else 400 <= res_status res ->
       In (Later StErrorHandler) trace /\
       (exists err req', res = error_handler cfg err req') /\
       (req_accepts_json req = true -> is_envelope (res_body res) = true).
Proof.
  intros res trace. unfold res, trace, serve, answered_outside_error_handler.
  split.
  { intros Hhits. unfold rate_limited, rate_limit_max.
    destruct (Nat.ltb_spec 100 (S (earlier_hits arr))); [reflexivity | lia]. }
  destruct (rate_limited arr); cbn [orb].
  - cbn [fst snd]. split; [unfold too_many_requests; cbn; lia|].
    split; [simpl; intuition discriminate | reflexivity].
  - destruct (parse_failure arr) as [err|].
    + cbn [fst snd]. intros _. split; [simpl; auto|]. split; [eauto|].
      apply error_handler_envelope.
    + pose proof (failures_reach_error_handler cfg v amb req db) as Hroutes.
      cbv zeta in Hroutes.
      destruct (handle cfg v amb req db) as [[r db'] tr]. cbn [fst snd] in *.
      destruct (responds_directly cfg req db).
      * destruct Hroutes as (Hst & Hno & Henv). split; [exact Hst|].
        split; [by rewrite In_Later | exact Henv].
      * intros Hfail. destruct (Hroutes Hfail) as (Hin & Herr & Henv).
        split; [by apply In_Later|]. by split.
Qed.

(** * Further properties of the code *)

(** ** validation.js: the other paths of the validator *)

Lemma required_errors_nil (props : list string) (o : object) :
  (forall p, In p props -> get_prop o p <> None) ->
  required_errors (Some props) o = [].
Proof.
  intros Hall. unfold required_errors.
  induction props as [|p props IH]; [reflexivity|]. simpl.
  destruct (get_prop o p) eqn:Hg.
  - apply IH. intros q Hq. apply Hall. by right.
  - exfalso. apply (Hall p); [by left | done].
Qed.

(** A declared property whose value cannot be coerced is in the error
    list, under its path. *)
Lemma apply_properties_type_error_In
    (props : list (string * JSONType)) (o : object)
    (k : string) (t : JSONType) (w : value) :
  NoDup (map fst props) -> In (k, t) props ->
  get_prop o k = Some w -> type_error t w = true ->
  In {| instancePath := "/" +:+ escapeJsonPointer k;
        message := "must be " +:+ type_name t |}
     (fst (apply_properties props o)).
Proof.
  revert o. induction props as [|[p t'] props IH]; intros o Hnd Hin Hg Hty;
    [destruct Hin|].
  simpl in Hnd. apply NoDup_cons in Hnd as [Hp Hnd].
  assert (Hfresh : In (k, t) props -> p <> k).
  { intros Hin' ->. apply Hp, list_elem_of_In.
    change k with (fst (k, t)). by apply in_map. }
  simpl. destruct Hin as [Heq | Hin].
  - inversion Heq; subst p t'. rewrite Hg. unfold type_error in Hty.
    destruct (checkDataType t w); [discriminate|].
    destruct (coerceData t w); [discriminate|].
    destruct (apply_properties props o). by left.
  - specialize (Hfresh Hin).
    destruct (get_prop o p) as [v|] eqn:Hp'.
    + destruct (checkDataType t' v); [by apply IH|].
      destruct (coerceData t' v) as [c|].
      * apply IH; [done | done | | done]. by rewrite get_set_prop_ne.
      * specialize (IH o Hnd Hin Hg Hty).
        destruct (apply_properties props o). by right.
    + destruct (inherited p); [|by apply IH].
      specialize (IH o Hnd Hin Hg Hty).
      destruct (apply_properties props o). by right.
Qed.

(** X1: for a schema type that is not registered, [getSchemaValidator]
    allocates nothing, and the middleware it returns forwards the 422 error
    "Unknown schema type" for every request, leaving the body alone. *)
Theorem unknown_schema_type_gate (reg : gmap string loc) (schemaType mode : string)
    (heap : gmap loc Schema) (req : Request) :
  reg !! schemaType = None ->
  exists g,
    getSchemaValidator reg schemaType mode heap = Some (g, heap) /\
    run_gate g req = NextErr (createError 422 "Unknown schema type") req.
Proof.
  intros Hreg. exists UnknownSchemaGate.
  split; [by apply getSchemaValidator_unknown | reflexivity].
Qed.

(** X2: a payload in which a declared field of the todo schema holds a
    value that cannot be coerced to the declared type fails validation, in
    every mode, with a 422 error whose message says "must be" and the type
    (for instance "must be number" for a [priority] that is no numeric
    string). *)
Theorem type_mismatch_rejected (mode : string) (req : Request) (o : object)
    (k : string) (t : JSONType) (w : value) :
  req_body req = VObj o ->
  In (k, t) (properties todo_schema) ->
  get_prop o k = Some w ->
  type_error t w = true ->
  exists compiled heap',
    getSchemaValidator schema "todo" mode initial_heap
    = Some (SchemaGate "todo" mode compiled, heap') /\
    fails_422_naming (SchemaGate "todo" mode compiled) req
      ("must be " +:+ type_name t).
Proof.
  intros Hbody Hin Hg Hty.
  rewrite (getSchemaValidator_known schema "todo" mode initial_heap _ _
             todo_registered todo_in_initial_heap).
  set (compiled := if String.eqb mode "partial"
                   then delete_required todo_schema else todo_schema).
  assert (Hp : properties compiled = properties todo_schema)
    by (unfold compiled; by destruct (String.eqb mode "partial")).
  exists compiled, (<[fresh (dom initial_heap) := compiled]> initial_heap).
  split; [reflexivity|].
  destruct (run_gate_errors "todo" mode compiled req
              {| instancePath := "/" +:+ escapeJsonPointer k;
                 message := "must be " +:+ type_name t |})
    as (msg & Hrun & Hinc).
  { rewrite Hbody, validate_object. cbn [fst]. rewrite Hp.
    apply in_or_app. right. apply in_or_app. right.
    by apply (apply_properties_type_error_In _ _ k t w todo_properties_NoDup). }
  exists msg. eexists. split; [exact Hrun | exact Hinc].
Qed.

(** X3: the strict validator passes a payload that has every required
    field of the todo schema, no other field, and in each field a value
    of the declared type; the body goes on to the handler unchanged. *)
Theorem well_typed_todo_accepted (req : Request) (o : object) :
  req_body req = VObj o ->
  (forall p, In p ["task"; "priority"; "assigned_to"; "is_complete"] ->
             get_prop o p <> None) ->
  (forall k, In k (keys o) ->
             In k ["task"; "priority"; "assigned_to"; "is_complete"]) ->
  (forall k t w, In (k, t) (properties todo_schema) ->
                 get_prop o k = Some w -> checkDataType t w = true) ->
  run_gate (SchemaGate "todo" "strict" todo_schema) req
  = Next (with_body req (VObj o)).
Proof.
  intros Hbody Hreq Hclosed Hty.
  assert (Hv : validate todo_schema (req_body req) = ([], VObj o)).
  { rewrite Hbody, validate_object.
    rewrite (apply_properties_well_typed _ _ todo_properties_own Hty).
    cbn [fst snd].
    change (required todo_schema)
      with (Some ["task"; "priority"; "assigned_to"; "is_complete"]).
    rewrite (required_errors_nil _ _ Hreq).
    change (negb (additionalProperties todo_schema)) with true.
    by rewrite (proj2 (additional_errors_nil (properties todo_schema) o) Hclosed). }
  unfold run_gate. by rewrite Hv.
Qed.

(** X4: whatever schema a strict-mode validator is compiled from, a body it
    passes is passed by the partial-mode validator of the same schema too,
    and leaves it with the same coercions: the update route accepts every
    body the create route accepts. *)
Theorem strict_pass_implies_partial_pass (name name' mode mode' : string)
    (s : Schema) (req req' : Request) :
  run_gate (SchemaGate name mode s) req = Next req' ->
  run_gate (SchemaGate name' mode' (delete_required s)) req = Next req'.
Proof.
  unfold run_gate. destruct (req_body req) as [| | | | |o| |] eqn:Hbody;
    try (simpl; discriminate).
  rewrite !validate_object.
  change (properties (delete_required s)) with (properties s).
  change (additionalProperties (delete_required s)) with (additionalProperties s).
  change (required_errors (required (delete_required s)) o) with (@nil ErrorObject).
  destruct (required_errors (required s) o) as [|e es]; [done|].
  simpl. discriminate.
Qed.

(** X5: on the create and update routes, a body the validator rejects never
    reaches the handler: the request ends in the central error handler with
    the 422 error that carries Ajv's text, and the database is as it was. *)
Theorem rejected_body_never_reaches_handler (cfg : Config) (v : Validators)
    (amb : Ambient) (req : Request) (db : Db)
    (name mode : string) (s : Schema) :
  (req_endpoint req = PostTodo /\ post_validator v = SchemaGate name mode s) \/
  (exists id oid, req_endpoint req = PutTodo id /\ castObjectId id = Some oid /\
                  put_validator v = SchemaGate name mode s) ->
  fst (validate s (req_body req)) <> [] ->
  exists trace,
    handle cfg v amb req db
    = (error_handler cfg
         (createError 422 (errorsText (fst (validate s (req_body req)))))
         (with_body (with_user req stub_user) (snd (validate s (req_body req)))),
       db, trace) /\
    ~ In StHandler trace /\ In StValidate trace.
Proof.
  intros Hroute Herr.
  assert (Hgate : forall db0,
             lift (run_gate (SchemaGate name mode s)) (with_user req stub_user) db0
             = (NextErr (createError 422 (errorsText (fst (validate s (req_body req)))))
                  (with_body (with_user req stub_user)
                     (snd (validate s (req_body req)))), db0)).
  { intros db0. unfold lift, run_gate. cbn [req_body with_user].
    destruct (validate s (req_body req)) as [errors body]. cbn [fst snd] in *.
    by destruct errors. }
  unfold handle.
  destruct Hroute as [[Hr Hv] | (id & oid & Hr & Hcast & Hv)];
    rewrite Hr; cbn [route_stack]; rewrite Hv.
  - rewrite (run_stack_next StAuth (lift authenticate_user) _ req
               (with_user req stub_user) db db eq_refl).
    cbn [run_stack]. rewrite Hgate. cbn [fst snd app].
    eexists. split; [reflexivity|]. simpl. intuition discriminate.
  - rewrite (run_stack_next _ _ _ _ _ _ _ (param_passes id oid req db Hcast)).
    rewrite (run_stack_next StAuth (lift authenticate_user) _ req
               (with_user req stub_user) db db eq_refl).
    cbn [run_stack]. rewrite Hgate. cbn [fst snd app].
    eexists. split; [reflexivity|]. simpl. intuition discriminate.
Qed.

(** ** app.js and the routes *)

Lemma run_stack_threads (stack : list (Stage * Middleware))
    (req : Request) (db : Db) :
  (exists r d,
     thread_next stack req db = Some (r, d) /\
     run_stack stack req db = (Next r, d, map fst stack)) \/
  (exists pre name m rest r d o d',
     stack = pre ++ (name, m) :: rest /\
     thread_next pre req db = Some (r, d) /\
     m r d = (o, d') /\ (forall r', o <> Next r') /\
     run_stack stack req db = (o, d', map fst pre ++ [name])).
Proof.
  revert req db. induction stack as [|[name m] stack IH]; intros req db.
  - left. by exists req, db.
  - destruct (m req db) as [o db1] eqn:Hm.
    destruct o as [r | err r | res r].
    + destruct (IH r db1) as [(r2 & d2 & Hth & Hrun)
                             | (pre & n2 & m2 & rest & r2 & d2 & o & d' &
                                Hsplit & Hth & Hm2 & Hstop & Hrun)].
      * left. exists r2, d2. simpl. rewrite Hm. split; [exact Hth|].
        by rewrite Hrun.
      * right. exists ((name, m) :: pre), n2, m2, rest, r2, d2, o, d'.
        split; [by rewrite Hsplit|]. simpl. rewrite Hm.
        split; [exact Hth|]. split; [exact Hm2|]. split; [exact Hstop|].
        by rewrite Hrun.
    + right. exists [], name, m, stack, req, db, (NextErr err r), db1.
      simpl. rewrite Hm. repeat split; try done.
    + right. exists [], name, m, stack, req, db, (Respond res r), db1.
      simpl. rewrite Hm. repeat split; try done.
Qed.

(** X6: the stages of a route run from left to right, each on the request
    and the database that the stage before passed on with [next()].  The
    first stage that answers, or forwards an error, ends the run: the
    response is its response (or the error handler's rendering of its
    error), the database is as it left it, and the trace stops at it, so
    no later stage runs.  The 404 handler answers only when every stage of
    the route called [next()]. *)
Theorem stages_run_left_to_right (cfg : Config) (v : Validators)
    (amb : Ambient) (req : Request) (db : Db) :
  (exists r d,
     thread_next (route_stack cfg v amb (req_endpoint req)) req db = Some (r, d) /\
     handle cfg v amb req db
     = (error_handler cfg (createError 404 "Not Found") r, d,
        map fst (route_stack cfg v amb (req_endpoint req))
        ++ [StNotFound; StErrorHandler])) \/
  (exists pre name m rest r d o d',
     route_stack cfg v amb (req_endpoint req) = pre ++ (name, m) :: rest /\
     thread_next pre req db = Some (r, d) /\
     m r d = (o, d') /\
     match o with
     | Respond res _ => handle cfg v amb req db = (res, d', map fst pre ++ [name])
     | NextErr err r' =>
         handle cfg v amb req db
         = (error_handler cfg err r', d', map fst pre ++ [name; StErrorHandler])
     | Next _ => False
     end).
Proof.
  unfold handle.
  destruct (run_stack_threads (route_stack cfg v amb (req_endpoint req)) req db)
    as [(r & d & Hth & Hrun)
       | (pre & name & m & rest & r & d & o & d' & Hsplit & Hth & Hm & Hstop & Hrun)].
  - left. exists r, d. split; [exact Hth|]. by rewrite Hrun.
  - right. exists pre, name, m, rest, r, d, o, d'.
    split; [exact Hsplit|]. split; [exact Hth|]. split; [exact Hm|].
    rewrite Hrun. destruct o as [r' | err r' | res r'].
    + by apply (Hstop r').
    + by rewrite <- app_assoc.
    + reflexivity.
Qed.

(** X7: for a client that does not accept JSON, outside development mode,
    the error page shows neither the message nor the stack nor the status
    of the error: the message is the fixed "Your request is in error.", the
    stack the empty array, the status code undefined; the response status
    is still that of the error, or 500. *)
Theorem html_error_page_hides_details (cfg : Config) (err : HttpError)
    (req : Request) :
  req_accepts_json req = false ->
  environment cfg <> "development" ->
  error_handler cfg err req
  = {| res_status := status_or_500 err;
       res_body := BodyRender "error"
         (getErrorTemplateParams cfg None "Your request is in error."
            StackEmptyArray req) |} /\
  tp_message (getErrorTemplateParams cfg None "Your request is in error."
                StackEmptyArray req) = "Your request is in error." /\
  stack (getErrorTemplateParams cfg None "Your request is in error."
           StackEmptyArray req) = StackEmptyArray.
Proof.
  intros Hj Hprod. unfold error_handler. rewrite Hj.
  destruct (String.eqb_spec (environment cfg) "development"); [done|].
  repeat split.
Qed.

(** X8: when [NODE_ENV] is unset or empty the two branches of the error
    handler disagree: environment.js reports "production", so the HTML page
    hides the stack, while Express reports "development", so the JSON body
    of the same error carries it. *)
Theorem unset_NODE_ENV_json_shows_stack (cfg : Config) (err : HttpError)
    (req_json req_html : Request) (s : string) :
  NODE_ENV cfg = None \/ NODE_ENV cfg = Some "" ->
  err_stack err = Some s ->
  req_accepts_json req_json = true ->
  req_accepts_json req_html = false ->
  environment cfg = "production" /\
  app_get_env cfg = "development" /\
  res_body (error_handler cfg err req_json)
  = BodyJson (VObj [("error", VObj [("message", VStr (err_message err));
                                    ("stack", VStr s)])]) /\
  res_body (error_handler cfg err req_html)
  = BodyRender "error"
      (getErrorTemplateParams cfg None "Your request is in error."
         StackEmptyArray req_html).
Proof.
  intros Henv Hs Hj Hh.
  assert (He : environment cfg = "production").
  { unfold environment, or_default. by destruct Henv as [-> | ->]. }
  assert (Ha : app_get_env cfg = "development").
  { unfold app_get_env, or_default. by destruct Henv as [-> | ->]. }
  split; [exact He|]. split; [exact Ha|].
  unfold error_handler. rewrite Hj, Hh, He, Ha, Hs. by split.
Qed.

(** X9: a request that no route matches is answered by the central error
    handler with the 404 error "Not Found"; no stage of any route runs and
    the database is as it was. *)
Theorem unmatched_route_is_404 (cfg : Config) (v : Validators) (amb : Ambient)
    (req : Request) (db : Db) :
  req_endpoint req = Unrouted ->
  handle cfg v amb req db
  = (error_handler cfg (createError 404 "Not Found") req, db,
     [StNotFound; StErrorHandler]) /\
  res_status (error_handler cfg (createError 404 "Not Found") req) = 404.
Proof.
  intros Hroute. unfold handle. rewrite Hroute. split; [reflexivity|].
  unfold error_handler. by destruct (req_accepts_json req).
Qed.

(** X10: when the database does not answer, every todo route that gets as
    far as its handler (a well-formed identifier where there is one, a body
    the validator passes where there is one) ends in the central error
    handler with the store's error, which is rendered with status 500 when
    it carries none. *)
Theorem store_failure_reaches_error_handler (cfg : Config) (v : Validators)
    (amb : Ambient) (req : Request) (e : HttpError) :
  match req_endpoint req with
  | GetTodos => True
  | GetTodo id | DeleteTodo id => ObjectId_isValid id = true
  | PostTodo =>
      exists r o, run_gate (post_validator v) (with_user req stub_user) = Next r /\
                  req_body r = VObj o
  | PutTodo id =>
      ObjectId_isValid id = true /\
      exists r o, run_gate (put_validator v) (with_user req stub_user) = Next r /\
                  req_body r = VObj o
  | _ => False
  end ->
  exists req' trace,
    handle cfg v amb req (Down e) = (error_handler cfg e req', Down e, trace) /\
    In StHandler trace /\
    (err_status e = None -> res_status (error_handler cfg e req') = 500).
Proof.
  assert (H500 : forall r, err_status e = None ->
                           res_status (error_handler cfg e r) = 500).
  { intros r He. unfold error_handler, status_or_500. rewrite He.
    by destruct (req_accepts_json r). }
  unfold handle.
  destruct (req_endpoint req) as [|id| |id|id| | | | |] eqn:Hroute; intros Hpre;
    try (exfalso; exact Hpre); cbn [route_stack run_stack lift].
  - unfold authenticate_user. cbn. eexists _, _. split; [reflexivity|].
    split; [simpl; auto | apply H500].
  - unfold validateObjectIdParamHandler. rewrite Hpre. cbn.
    eexists _, _. split; [reflexivity|]. split; [simpl; auto | apply H500].
  - destruct Hpre as (r & o & Hgate & Hbody).
    unfold authenticate_user. rewrite Hgate.
    unfold post_handler. rewrite Hbody. cbn.
    eexists _, _. split; [reflexivity|]. split; [simpl; auto | apply H500].
  - destruct Hpre as (Hid & r & o & Hgate & Hbody).
    unfold validateObjectIdParamHandler. rewrite Hid. cbn [negb].
    unfold authenticate_user. rewrite Hgate.
    unfold put_handler. rewrite Hbody. cbn.
    eexists _, _. split; [reflexivity|]. split; [simpl; auto | apply H500].
  - unfold validateObjectIdParamHandler. rewrite Hpre. cbn.
    eexists _, _. split; [reflexivity|]. split; [simpl; auto | apply H500].
Qed.

(** X11: the list route answers 200 with all the documents of the
    collection, in order, as a JSON array (the empty array for an empty
    collection), and does not change the collection. *)
Theorem list_returns_all (cfg : Config) (v : Validators) (amb : Ambient)
    (req : Request) (c : Collection) :
  req_endpoint req = GetTodos ->
  handle cfg v amb req (Up c)
  = (json_response 200 (VArr (map VObj c)), Up c, [StAuth; StHandler]) /\
  (c = [] -> fst (fst (handle cfg v amb req (Up c))) = json_response 200 (VArr [])).
Proof.
  intros Hroute. unfold handle. rewrite Hroute. split; [reflexivity|].
  intros ->. reflexivity.
Qed.

Lemma get_by_id_found_or_404_aux (cfg : Config) (v : Validators) (amb : Ambient)
    (req : Request) (c : Collection) (id : string) (oid : ObjectId) :
  req_endpoint req = GetTodo id ->
  castObjectId id = Some oid ->
  handle cfg v amb req (Up c)
  = match findOne c oid with
    | Some todo =>
        (json_response 200 (VObj todo), Up c, [StParam; StAuth; StHandler])
    | None =>
        (error_handler cfg (createError 404 "Todo not found")
           (with_user req stub_user),
         Up c, [StParam; StAuth; StHandler; StErrorHandler])
    end.
Proof.
  intros Hroute Hcast. unfold handle. rewrite Hroute. cbn [route_stack].
  rewrite (run_stack_next _ _ _ _ _ _ _ (param_passes id oid req (Up c) Hcast)).
  rewrite (run_stack_next StAuth (lift authenticate_user) _ req
             (with_user req stub_user) (Up c) (Up c) eq_refl).
  cbn [run_stack]. unfold get_handler, getById. rewrite Hcast.
  by destruct (findOne c oid).
Qed.

(** X12: the get-by-id route with a well-formed identifier answers 200 with
    the first document of that identifier, and the 404 error "Todo not
    found" through the central error handler when there is none; either
    way the collection is unchanged. *)
Theorem get_by_id_found_or_404 (cfg : Config) (v : Validators) (amb : Ambient)
    (req : Request) (c : Collection) (id : string) (oid : ObjectId) :
  req_endpoint req = GetTodo id ->
  castObjectId id = Some oid ->
  handle cfg v amb req (Up c)
  = match findOne c oid with
    | Some todo =>
        (json_response 200 (VObj todo), Up c, [StParam; StAuth; StHandler])
    | None =>
        (error_handler cfg (createError 404 "Todo not found")
           (with_user req stub_user),
         Up c, [StParam; StAuth; StHandler; StErrorHandler])
    end.
Proof. apply get_by_id_found_or_404_aux. Qed.

(** X13: in development and test, the authentication test route answers
    200 with the fixed identity the authentication middleware attached,
    whatever identity the request came with; elsewhere it answers 404. *)
Theorem auth_test_returns_stub_identity (cfg : Config) (v : Validators)
    (amb : Ambient) (req : Request) (db : Db) :
  req_endpoint req = AuthTest ->
  handle cfg v amb req db
  = (if diagnostics_enabled cfg
     then json_response 200
            (VObj [("authenticated_user",
                    VObj [("id", VStr "placeholder-user-id");
                          ("username", VStr "stub_user");
                          ("roles", VArr [VStr "user"])])])
     else sendStatus 404,
     db, [StAuth; StHandler]).
Proof.
  intros Hroute. unfold handle. rewrite Hroute. cbn [route_stack run_stack lift].
  unfold authenticate_user, auth_test. cbn [req_user with_user].
  by destruct (diagnostics_enabled cfg).
Qed.

(** X14: in development and test, the error thrown by the throw_error route
    reaches the central error handler and is answered with status 500; the
    response shows the message of the error to a client that accepts JSON
    (and, on the error page, in development), and "Your request is in
    error." on the page otherwise; the database is untouched. *)
Theorem throw_error_is_500 (cfg : Config) (v : Validators) (amb : Ambient)
    (req : Request) (db : Db) :
  req_endpoint req = ThrowError ->
  diagnostics_enabled cfg = true ->
  handle cfg v amb req db
  = (error_handler cfg
       (newError "💥 Uncaught test exception from /v1/throw_error") req,
     db, [StHandler; StErrorHandler]) /\
  res_status (fst (fst (handle cfg v amb req db))) = 500 /\
  shown_message (res_body (fst (fst (handle cfg v amb req db))))
  = Some (if req_accepts_json req || String.eqb (environment cfg) "development"
          then "💥 Uncaught test exception from /v1/throw_error"
          else "Your request is in error.").
Proof.
  intros Hroute Hdiag.
  assert (Hh : handle cfg v amb req db
               = (error_handler cfg
                    (newError "💥 Uncaught test exception from /v1/throw_error") req,
                  db, [StHandler; StErrorHandler])).
  { unfold handle. rewrite Hroute. cbn [route_stack run_stack].
    unfold throw_error. by rewrite Hdiag. }
  rewrite Hh. split; [reflexivity|]. cbn [fst]. split.
  - unfold error_handler. by destruct (req_accepts_json req).
  - apply shown_message_error_handler.
Qed.

(** ** todo_demo_module.js: the collection under the operations *)

Lemma get_prop_spread_notin (b a : object) (k : string) :
  ~ In k (keys b) -> get_prop (spread a b) k = get_prop a k.
Proof.
  revert a. induction b as [|[k0 v0] b IH]; intros a Hn; [reflexivity|].
  change (spread a ((k0, v0) :: b)) with (spread (set_prop a k0 v0) b).
  simpl in Hn. rewrite IH by tauto. apply get_set_prop_ne. tauto.
Qed.

Lemma get_prop_spread_in (b a : object) (k : string) :
  NoDup (keys b) -> In k (keys b) -> get_prop (spread a b) k = get_prop b k.
Proof.
  revert a. induction b as [|[k0 v0] b IH]; intros a Hnd Hin; [destruct Hin|].
  simpl in Hnd. apply NoDup_cons in Hnd as [Hk Hnd].
  change (spread a ((k0, v0) :: b)) with (spread (set_prop a k0 v0) b).
  simpl. destruct (String.eqb_spec k0 k) as [-> | Hne].
  - rewrite get_prop_spread_notin.
    + apply get_set_prop_eq.
    + intros Hin'. apply Hk. by apply list_elem_of_In.
  - apply IH; [done|]. destruct Hin as [? | ?]; [done | assumption].
Qed.

Lemma has_id_other (oid oid' : ObjectId) (d : object) :
  oid' <> oid -> has_id oid d = true -> has_id oid' d = false.
Proof.
  unfold has_id. destruct (get_prop d "_id") as [[| | | | | | |o]|]; try done.
  intros Hne Hid. apply bool_decide_eq_true in Hid. subst o.
  by apply bool_decide_eq_false.
Qed.

Lemma has_id_spread (oid : ObjectId) (doc upd : object) :
  ~ In "_id" (keys upd) -> has_id oid (spread doc upd) = has_id oid doc.
Proof. intros Hn. unfold has_id. by rewrite get_prop_spread_notin. Qed.

Lemma update_first_length (oid : ObjectId) (upd : object) (c : Collection) :
  length (snd (update_first oid upd c)) = length c.
Proof.
  induction c as [|d c IH]; [reflexivity|]. simpl.
  destruct (has_id oid d); [reflexivity|].
  destruct (update_first oid upd c) as [r c']. simpl in *. by rewrite IH.
Qed.

Lemma update_first_find (oid : ObjectId) (upd : object) (c : Collection)
    (doc : object) :
  ~ In "_id" (keys upd) -> findOne c oid = Some doc ->
  findOne (snd (update_first oid upd c)) oid = Some (spread doc upd).
Proof.
  intros Hn. unfold findOne. induction c as [|d c IH]; [discriminate|]. simpl.
  destruct (has_id oid d) eqn:Hd.
  - intros Heq. inversion Heq; subst. simpl. by rewrite has_id_spread, Hd.
  - intros Hf. specialize (IH Hf).
    destruct (update_first oid upd c) as [r c']. simpl in *. by rewrite Hd.
Qed.

Lemma update_first_find_other (oid oid' : ObjectId) (upd : object)
    (c : Collection) :
  ~ In "_id" (keys upd) -> oid' <> oid ->
  findOne (snd (update_first oid upd c)) oid' = findOne c oid'.
Proof.
  intros Hn Hne. unfold findOne. induction c as [|d c IH]; [reflexivity|]. simpl.
  destruct (has_id oid d) eqn:Hd.
  - simpl. rewrite has_id_spread by done.
    by rewrite (has_id_other oid oid' d Hne Hd).
  - destruct (update_first oid upd c) as [r c']. simpl in *. by rewrite IH.
Qed.

Lemma update_first_ids (oid : ObjectId) (upd : object) (c : Collection) :
  ~ In "_id" (keys upd) -> ids (snd (update_first oid upd c)) = ids c.
Proof.
  intros Hn. unfold ids. induction c as [|d c IH]; [reflexivity|]. simpl.
  destruct (has_id oid d).
  - simpl. by rewrite get_prop_spread_notin.
  - destruct (update_first oid upd c) as [r c']. simpl in *. by rewrite IH.
Qed.

Lemma delete_first_miss (oid : ObjectId) (c : Collection) :
  findOne c oid = None -> delete_first oid c = (0, c).
Proof.
  unfold findOne. induction c as [|d c IH]; [reflexivity|]. simpl.
  destruct (has_id oid d); [discriminate|]. intros Hf. by rewrite (IH Hf).
Qed.

Lemma delete_first_hit (oid : ObjectId) (c : Collection) (doc : object) :
  findOne c oid = Some doc ->
  fst (delete_first oid c) = 1 /\
  S (length (snd (delete_first oid c))) = length c.
Proof.
  unfold findOne. induction c as [|d c IH]; [discriminate|]. simpl.
  destruct (has_id oid d); [by intros _|].
  intros Hf. destruct (IH Hf) as [H1 H2].
  destruct (delete_first oid c) as [n c']. simpl in *. by rewrite H1, H2.
Qed.

Lemma delete_first_find_other (oid oid' : ObjectId) (c : Collection) :
  oid' <> oid -> findOne (snd (delete_first oid c)) oid' = findOne c oid'.
Proof.
  intros Hne. unfold findOne. induction c as [|d c IH]; [reflexivity|]. simpl.
  destruct (has_id oid d) eqn:Hd.
  - simpl. by rewrite (has_id_other oid oid' d Hne Hd).
  - destruct (delete_first oid c) as [n c']. simpl in *. by rewrite IH.
Qed.

Lemma has_id_ids (oid : ObjectId) (d : object) (c : Collection) :
  has_id oid d = true -> In d c -> In (Some (VObjectId oid)) (ids c).
Proof.
  intros Hid Hin. unfold ids. apply in_map_iff. exists d. split; [|done].
  unfold has_id in Hid.
  destruct (get_prop d "_id") as [[| | | | | | |o]|]; try done.
  apply bool_decide_eq_true in Hid. by subst.
Qed.

Lemma delete_first_find_gone (oid : ObjectId) (c : Collection) :
  NoDup (ids c) -> findOne (snd (delete_first oid c)) oid = None.
Proof.
  unfold findOne. induction c as [|d c IH]; intros Hnd; [reflexivity|].
  simpl in Hnd. apply NoDup_cons in Hnd as [Hd Hnd]. simpl.
  destruct (has_id oid d) eqn:Hid.
  - simpl. destruct (List.find (has_id oid) c) as [d'|] eqn:Hf; [|reflexivity].
    exfalso. apply Hd. apply list_elem_of_In.
    apply find_some in Hf as [Hin Hid'].
    assert (Hsame : get_prop d "_id" = Some (VObjectId oid)).
    { unfold has_id in Hid.
      destruct (get_prop d "_id") as [[| | | | | | |o]|]; try done.
      apply bool_decide_eq_true in Hid. by subst. }
    rewrite Hsame. by apply (has_id_ids oid d' c).
  - specialize (IH Hnd). destruct (delete_first oid c) as [n c'].
    simpl in *. by rewrite Hid.
Qed.

Lemma delete_first_ids (oid : ObjectId) (c : Collection) :
  NoDup (ids c) -> NoDup (ids (snd (delete_first oid c))).
Proof.
  induction c as [|d c IH]; intros Hnd; [done|].
  simpl in Hnd. apply NoDup_cons in Hnd as [Hd Hnd]. simpl.
  destruct (has_id oid d); [exact Hnd|].
  assert (Hsub : forall x, In x (ids (snd (delete_first oid c))) -> In x (ids c)).
  { clear. induction c as [|d' c IHc]; [done|]. simpl.
    destruct (has_id oid d'); [intros x Hx; by right|].
    destruct (delete_first oid c) as [n c']. simpl in *.
    intros x [<- | Hx]; [by left | right; by apply IHc]. }
  specialize (IH Hnd). destruct (delete_first oid c) as [n c']. simpl in *.
  apply NoDup_cons. split; [|exact IH].
  intros Hin. apply Hd. apply list_elem_of_In, Hsub. by apply list_elem_of_In.
Qed.

(** X15: the delete route with a well-formed identifier answers 204 when a
    document has that identifier, and removes exactly one document: the
    collection is one shorter, documents of other identifiers are found as
    before, and, identifiers being unique, the deleted one is found no
    more. *)
Theorem delete_removes_the_document (cfg : Config) (v : Validators)
    (amb : Ambient) (req : Request) (c : Collection)
    (id : string) (oid : ObjectId) (doc : object) :
  req_endpoint req = DeleteTodo id ->
  castObjectId id = Some oid ->
  findOne c oid = Some doc ->
  exists c',
    handle cfg v amb req (Up c)
    = (sendStatus 204, Up c', [StParam; StAuth; StHandler]) /\
    S (length c') = length c /\
    (forall oid', oid' <> oid -> findOne c' oid' = findOne c oid') /\
    (NoDup (ids c) -> findOne c' oid = None).
Proof.
  intros Hroute Hcast Hfind.
  exists (snd (delete_first oid c)).
  destruct (delete_first_hit oid c doc Hfind) as [Hn Hlen].
  split; [|split; [exact Hlen|split]].
  - unfold handle. rewrite Hroute. cbn [route_stack].
    rewrite (run_stack_next _ _ _ _ _ _ _ (param_passes id oid req (Up c) Hcast)).
    rewrite (run_stack_next StAuth (lift authenticate_user) _ req
               (with_user req stub_user) (Up c) (Up c) eq_refl).
    cbn [run_stack]. unfold delete_handler, delete, deleteOne. rewrite Hcast.
    destruct (delete_first oid c) as [n c']. simpl in *. by rewrite Hn.
  - intros oid' Hne. by apply delete_first_find_other.
  - apply delete_first_find_gone.
Qed.

(** X16: deleting an identifier no document has answers the 404 error
    "Todo not found" through the central error handler and leaves the
    collection exactly as it was, so repeating the request gives the same
    answer any number of times. *)
Theorem delete_miss_is_404 (cfg : Config) (v : Validators)
    (amb : Ambient) (req : Request) (c : Collection)
    (id : string) (oid : ObjectId) :
  req_endpoint req = DeleteTodo id ->
  castObjectId id = Some oid ->
  findOne c oid = None ->
  handle cfg v amb req (Up c)
  = (error_handler cfg (createError 404 "Todo not found")
       (with_user req stub_user),
     Up c, [StParam; StAuth; StHandler; StErrorHandler]).
Proof.
  intros Hroute Hcast Hfind. unfold handle. rewrite Hroute. cbn [route_stack].
  rewrite (run_stack_next _ _ _ _ _ _ _ (param_passes id oid req (Up c) Hcast)).
  rewrite (run_stack_next StAuth (lift authenticate_user) _ req
             (with_user req stub_user) (Up c) (Up c) eq_refl).
  cbn [run_stack]. unfold delete_handler, delete, deleteOne. rewrite Hcast.
  by rewrite (delete_first_miss oid c Hfind).
Qed.

(** X17: [update] on a document that exists replaces the fields the update
    supplies and no other: afterwards the document found under the
    identifier has, for each supplied field, the supplied value and, for
    every other field, the value it had.  The result is [true] exactly when
    that changed the document; the collection keeps its length, and the
    documents of other identifiers are as before.  (The update does not
    supply [_id]: the validator's closed schema has no such field.) *)
Theorem update_merges_supplied_fields (c : Collection) (id : string)
    (oid : ObjectId) (upd doc : object) :
  castObjectId id = Some oid ->
  findOne c oid = Some doc ->
  ~ In "_id" (keys upd) ->
  NoDup (keys upd) ->
  exists c',
    update (Up c) id upd
    = (inr (negb (object_eqb doc (spread doc upd))), Up c') /\
    findOne c' oid = Some (spread doc upd) /\
    (forall k, In k (keys upd) -> get_prop (spread doc upd) k = get_prop upd k) /\
    (forall k, ~ In k (keys upd) -> get_prop (spread doc upd) k = get_prop doc k) /\
    length c' = length c /\
    (forall oid', oid' <> oid -> findOne c' oid' = findOne c oid').
Proof.
  intros Hcast Hfind Hid Hnd. exists (snd (update_first oid upd c)).
  split; [|split; [|split; [|split; [|split]]]].
  - unfold update. rewrite Hcast.
    pose proof (modifiedCount_found c oid upd doc Hfind) as Hm.
    unfold updateOne in *. destruct (update_first oid upd c) as [r c'].
    simpl in *. rewrite Hm. by destruct (object_eqb doc (spread doc upd)).
  - by apply update_first_find.
  - intros k Hk. by apply get_prop_spread_in.
  - intros k Hk. by apply get_prop_spread_notin.
  - apply update_first_length.
  - intros oid' Hne. by apply update_first_find_other.
Qed.

(** X18: the methods of the todo module keep the identifiers of the
    collection unique: whatever [create], [update] (with an update that
    does not supply [_id]) and [delete] leave behind has no two documents
    with the same [_id], if the collection had none before; and a call
    that fails (its promise is rejected) leaves the collection as it
    was. *)
Theorem todo_module_keeps_ids_unique (amb : Ambient) (c : Collection)
    (todo upd : object) (id : string) :
  NoDup (ids c) ->
  (exists c', snd (create amb (Up c) todo) = Up c' /\ NoDup (ids c') /\
              (forall e, fst (fst (create amb (Up c) todo)) = inl e -> c' = c)) /\
  (~ In "_id" (keys upd) ->
   exists c', snd (update (Up c) id upd) = Up c' /\ NoDup (ids c') /\
              (forall e, fst (update (Up c) id upd) = inl e -> c' = c)) /\
  (exists c', snd (delete (Up c) id) = Up c' /\ NoDup (ids c') /\
              (forall e, fst (delete (Up c) id) = inl e -> c' = c)).
Proof.
  intros Hnd. split; [|split].
  - unfold create, insertOne.
    set (todo1 := set_prop todo "date_created" (VDate (now amb))).
    set (idv := match get_prop todo1 "_id" with
                | Some w => w
                | None => VObjectId (generated_id amb)
                end).
    destruct (existsb _ c) eqn:Hex; [by exists c|].
    eexists. split; [reflexivity|]. split; [|intros e He; discriminate].
    unfold ids. rewrite map_app. apply NoDup_app. split; [exact Hnd|]. split.
    + intros x Hx Hx'. apply list_elem_of_In in Hx, Hx'.
      destruct Hx' as [<- | []]. simpl in Hx.
      apply in_map_iff in Hx as (d & Hd & Hin).
      apply not_true_iff_false in Hex. apply Hex.
      apply existsb_exists. exists d. split; [done|].
      rewrite Hd. apply value_eqb_refl.
    + apply NoDup_singleton.
  - intros Hid. unfold update. destruct (castObjectId id) as [oid|]; [|by exists c].
    unfold updateOne. exists (snd (update_first oid upd c)).
    destruct (update_first oid upd c) as [r c'] eqn:Hu. cbn [fst snd].
    split; [reflexivity|]. split; [|intros e He; discriminate].
    replace c' with (snd (update_first oid upd c)) by by rewrite Hu.
    by rewrite update_first_ids.
  - unfold delete. destruct (castObjectId id) as [oid|]; [|by exists c].
    unfold deleteOne. exists (snd (delete_first oid c)).
    destruct (delete_first oid c) as [n c'] eqn:Hd. cbn [fst snd].
    split; [reflexivity|]. split; [|intros e He; discriminate].
    replace c' with (snd (delete_first oid c)) by by rewrite Hd.
    by apply delete_first_ids.
Qed.

(** X19: [create] never changes or removes a document: the collection it
    leaves is the one it found, with at most one document added at the
    end, so every document that could be fetched before is fetched as
    before. *)
Theorem create_keeps_existing_documents (amb : Ambient) (c : Collection)
    (todo : object) :
  exists added,
    snd (create amb (Up c) todo) = Up (c ++ added) /\
    length added <= 1 /\
    forall oid doc, findOne c oid = Some doc -> findOne (c ++ added) oid = Some doc.
Proof.
  assert (Hfind : forall added oid doc,
             findOne c oid = Some doc -> findOne (c ++ added) oid = Some doc).
  { intros added oid doc. unfold findOne.
    induction c as [|d c IH]; [discriminate|]. simpl.
    by destruct (has_id oid d). }
  unfold create, insertOne.
  destruct (existsb _ c).
  - exists []. rewrite app_nil_r. split; [reflexivity|]. split; [simpl; lia|].
    auto.
  - eexists [_]. split; [reflexivity|]. split; [simpl; lia | apply Hfind].
Qed.

(** ** mongo_utils.js and db.js *)

Lemma parse_hex_length (s : string) (o : ObjectId) :
  parse_hex s = Some o -> length o = String.length s.
Proof.
  revert o. induction s as [|ch s IH]; intros o; simpl.
  - intros Heq. by inversion Heq.
  - destruct (hex_of_ascii ch); [|discriminate].
    destruct (parse_hex s) as [ds|]; [|discriminate].
    intros Heq. inversion Heq; subst. simpl. by rewrite (IH ds).
Qed.

(** X20: [castObjectId] and the hexadecimal form round-trip: an ObjectId of
    twelve bytes is what [castObjectId] makes of its hexadecimal form; and
    whenever [castObjectId] makes an ObjectId of a string, the string has
    24 characters, the ObjectId twelve bytes, and its hexadecimal form
    designates the same ObjectId (whatever the case of the letters in the
    string). *)
Theorem castObjectId_round_trip (id : string) (o : ObjectId) :
  (length o = 24 -> castObjectId (toHexString o) = Some o) /\
  (castObjectId id = Some o ->
   String.length id = 24 /\ length o = 24 /\
   castObjectId (toHexString o) = Some o).
Proof.
  split; [apply castObjectId_toHexString|].
  unfold castObjectId at 1, createFromHexString.
  destruct (Nat.eqb_spec (String.length id) 24) as [Hlen | Hlen]; [|discriminate].
  intros Hp. pose proof (parse_hex_length _ _ Hp) as Ho.
  split; [exact Hlen|]. split; [congruence|].
  apply castObjectId_toHexString. congruence.
Qed.

(** X21: what [newObjectId] returns is a well-formed ObjectId (its
    hexadecimal form passes [ObjectId.isValid] and casts back to it) that
    depends on the clock through the second only: its last eight bytes are
    zero, and two calls within the same second return the same ObjectId. *)
Theorem newObjectId_depends_on_second_only (t1 t2 : Z) :
  ObjectId_isValid (toHexString (newObjectId t1)) = true /\
  castObjectId (toHexString (newObjectId t1)) = Some (newObjectId t1) /\
  skipn 8 (newObjectId t1) = repeat H0 16 /\
  ((t1 / 1000)%Z = (t2 / 1000)%Z -> newObjectId t1 = newObjectId t2).
Proof.
  assert (Hcast : castObjectId (toHexString (newObjectId t1)) = Some (newObjectId t1))
    by (apply castObjectId_toHexString; reflexivity).
  split; [by apply (castObjectId_isValid _ _ Hcast)|].
  split; [exact Hcast|]. split; [reflexivity|].
  unfold newObjectId. by intros ->.
Qed.

(** X22: the connection URI never comes from [DB_URI], whatever it is set
    to; it carries credentials only when both the user name and the
    password are set, and is [mongodb://host:port] otherwise
    ([mongodb://localhost:27017] when nothing is set). *)
Theorem mongo_uri_ignores_DB_URI (encodeURIComponent : string -> string)
    (penv : ProcessEnv) (uri : option string) :
  mongo_uri encodeURIComponent (with_DB_URI penv uri)
  = mongo_uri encodeURIComponent penv /\
  (dbUsername penv = "" \/ dbPassword penv = "" ->
   mongo_uri encodeURIComponent penv
   = "mongodb://" +:+ dbUrl penv +:+ ":" +:+ dbPort penv) /\
  (DB_URL penv = None -> DB_PORT penv = None ->
   DB_USER_NAME penv = None -> DB_PASSWORD penv = None ->
   mongo_uri encodeURIComponent penv = "mongodb://localhost:27017").
Proof.
  split; [reflexivity|]. split.
  - unfold mongo_uri. intros [-> | ->]; simpl.
    + reflexivity.
    + by destruct (String.eqb _ "").
  - unfold mongo_uri, dbUsername, dbPassword, dbUrl, dbPort.
    by intros -> -> -> ->.
Qed.

(** ** Update, then fetch *)

Lemma partial_valid_keys (o : object) (k : string) :
  fst (validate (delete_required todo_schema) (VObj o)) = [] ->
  In k (keys o) -> In k ["task"; "priority"; "assigned_to"; "is_complete"].
Proof.
  rewrite validate_object. cbn [fst]. intros Hnil Hin.
  apply app_eq_nil in Hnil as [_ Hnil]. apply app_eq_nil in Hnil as [Hadd _].
  by apply (proj1 (additional_errors_nil (properties todo_schema) o) Hadd).
Qed.

(** X23: after an update request on an existing document, with a body the
    partial-mode validator passes, a fetch by the same identifier answers
    200 with the document in which the (coerced) fields of the body have
    replaced the old values and every other field, [_id] and
    [date_created] among them, is as before. *)
Theorem update_then_fetch (cfg : Config) (amb amb2 : Ambient)
    (req req2 : Request) (id : string) (oid : ObjectId)
    (c : Collection) (o doc : object) :
  req_endpoint req = PutTodo id ->
  req_endpoint req2 = GetTodo id ->
  castObjectId id = Some oid ->
  req_body req = VObj o ->
  fst (validate (delete_required todo_schema) (VObj o)) = [] ->
  findOne c oid = Some doc ->
  exists v heap' upd,
    register_todo_routes initial_heap = Some (v, heap') /\
    snd (validate (delete_required todo_schema) (VObj o)) = VObj upd /\
    fst (fst (handle cfg v amb2 req2 (snd (fst (handle cfg v amb req (Up c))))))
    = json_response 200 (VObj (spread doc upd)) /\
    (forall k, ~ In k (keys o) -> get_prop (spread doc upd) k = get_prop doc k) /\
    get_prop (spread doc upd) "_id" = get_prop doc "_id" /\
    get_prop (spread doc upd) "date_created" = get_prop doc "date_created".
Proof.
  intros Hroute Hroute2 Hcast Hbody Hok Hfind.
  destruct register_todo_routes_initial as [heap' Hreg].
  set (v := {| post_validator := SchemaGate "todo" "strict" todo_schema;
               put_validator :=
                 SchemaGate "todo" "partial" (delete_required todo_schema) |}) in *.
  set (upd := snd (apply_properties (properties todo_schema) o)).
  assert (Hkeys : keys upd = keys o) by apply apply_properties_keys.
  assert (Hout : forall k, ~ In k ["task"; "priority"; "assigned_to"; "is_complete"] ->
                           ~ In k (keys upd)).
  { intros k Hk Hin. apply Hk. rewrite Hkeys in Hin.
    by apply (partial_valid_keys o k Hok). }
  exists v, heap', upd. split; [exact Hreg|].
  split; [by rewrite validate_object|].
  split; [|split; [|split]].
  - pose proof (handle_put cfg v amb req id oid c o (delete_required todo_schema)
                  Hroute Hcast Hbody eq_refl Hok) as Hh.
    cbv zeta in Hh.
    change (properties (delete_required todo_schema))
      with (properties todo_schema) in Hh. fold upd in Hh.
    assert (Hdb : snd (fst (handle cfg v amb req (Up c)))
                  = Up (snd (updateOne c oid upd))).
    { rewrite Hh. by destruct (0 <? _)%nat. }
    rewrite Hdb.
    rewrite (get_by_id_found_or_404_aux cfg v amb2 req2 _ id oid Hroute2 Hcast).
    unfold updateOne. rewrite (update_first_find oid upd c doc); [reflexivity| |done].
    apply Hout. simpl. intuition discriminate.
  - intros k Hk. apply get_prop_spread_notin. by rewrite Hkeys.
  - apply get_prop_spread_notin, Hout. simpl. intuition discriminate.
  - apply get_prop_spread_notin, Hout. simpl. intuition discriminate.
Qed.

End Embedding.

(** * The claims on concrete requests *)

(** A runtime to run the embedding on examples: the integers, written in
    decimal, for the numbers. *)
Definition digit_of_ascii (c : ascii) : option Z :=
  match c with
  | "0"%char => Some 0%Z | "1"%char => Some 1%Z | "2"%char => Some 2%Z
  | "3"%char => Some 3%Z | "4"%char => Some 4%Z | "5"%char => Some 5%Z
  | "6"%char => Some 6%Z | "7"%char => Some 7%Z | "8"%char => Some 8%Z
  | "9"%char => Some 9%Z
  | _ => None
  end.

Fixpoint parse_digits (acc : Z) (s : string) : option Z :=
  match s with
  | EmptyString => Some acc
  | String c rest =>
      match digit_of_ascii c with
      | Some d => parse_digits (10 * acc + d)%Z rest
      | None => None
      end
  end.

Definition integer_of_string (s : string) : option Z :=
  match s with
  | EmptyString => Some 0%Z
  | String "-"%char (String c rest) => Z.opp <$> parse_digits 0 (String c rest)
  | _ => parse_digits 0 s
  end.

#[global] Instance IntegerRuntime : JsRuntime Z := {|
  num_zero := 0%Z;
  num_one := 1%Z;
  num_is_zero := Z.eqb 0;
  num_is_one := Z.eqb 1;
  num_isFinite := fun _ => true;
  string_to_number := integer_of_string;
  number_to_string := pretty;
  capture_stack := fun msg => "Error: " +:+ msg;
|}.

Definition example_config : Config := {|
  NODE_ENV := Some "test";
  serviceName := "API";
  useSSL := false;
  serviceUrl := "localhost";
  httpPort := 3000;
  httpsPort := 4443;
|}.

Definition example_request (e : Endpoint) (method url : string)
    (body : @value Z) : @Request Z :=
  {| req_endpoint := e; req_method := method; req_originalUrl := url;
     req_accepts_json := true; req_body := body; req_user := None |}.

(** The identifier the tests use, [507f1f77bcf86cd799439011]. *)
Definition example_id : ObjectId :=
  [H5; H0; H7; HF; H1; HF; H7; H7; HB; HC; HF; H8;
   H6; HC; HD; H7; H9; H9; H4; H3; H9; H0; H1; H1].

Definition example_ambient : Ambient :=
  {| now := 1700000000000; generated_id := example_id |}.

Definition example_validators : Validators :=
  {| post_validator := SchemaGate "todo" "strict" todo_schema;
     put_validator := SchemaGate "todo" "partial" (delete_required todo_schema) |}.

(** Requests from the test suite of the repository. *)
Definition put_with_extra : @Request Z :=
  example_request (PutTodo "507f1f77bcf86cd799439011") "PUT"
    "/v1/todo/507f1f77bcf86cd799439011"
    (VObj [("is_complete", VBool true); ("whoops", VNum 1%Z)]).

Definition post_only_task : @Request Z :=
  example_request PostTodo "POST" "/v1/todo" (VObj [("task", VStr "Only task")]).

Definition post_new_task : @Request Z :=
  example_request PostTodo "POST" "/v1/todo"
    (VObj [("task", VStr "New Task"); ("priority", VNum 3%Z);
           ("assigned_to", VStr "charlie"); ("is_complete", VBool false)]).

Definition put_complete : @Request Z :=
  example_request (PutTodo "507f1f77bcf86cd799439011") "PUT"
    "/v1/todo/507f1f77bcf86cd799439011" (VObj [("is_complete", VBool true)]).

Definition get_created : @Request Z :=
  example_request (GetTodo "507f1f77bcf86cd799439011") "GET"
    "/v1/todo/507f1f77bcf86cd799439011" VNull.

Definition get_malformed : @Request Z :=
  example_request (GetTodo "not-an-id") "GET" "/v1/todo/not-an-id" VNull.

Definition seeded : @Collection Z :=
  [[("_id", VObjectId example_id); ("task", VStr "Seed task 1");
    ("priority", VNum 1%Z); ("assigned_to", VStr "alice");
    ("is_complete", VBool false); ("date_created", VDate 1690000000000)]].

(** C1 on the request of the test "partial mode still blocks extras". *)
Lemma additional_property_rejected_witness :
  exists compiled heap',
    getSchemaValidator schema "todo" "partial" initial_heap
    = Some (SchemaGate "todo" "partial" compiled, heap') /\
    ("partial" = "partial" -> compiled = delete_required todo_schema) /\
    properties compiled = properties todo_schema /\
    additionalProperties compiled = false /\
    fails_422_naming (SchemaGate "todo" "partial" compiled) put_with_extra
      "must NOT have additional properties".
Proof.
  apply (additional_property_rejected "partial" put_with_extra
           [("is_complete", VBool true); ("whoops", VNum 1%Z)] "whoops").
  - reflexivity.
  - simpl. auto.
  - simpl. intuition discriminate.
Defined.

(** C3 on a partial-mode compilation followed by others. *)
Lemma registry_never_mutated_witness :
  exists gates heap',
    compile_all schema [("todo", "partial"); ("todo", "strict"); ("user", "partial")]
      initial_heap = Some (gates, heap') /\
    (forall l s, initial_heap !! l = Some s -> heap' !! l = Some s) /\
    (forall name l s, schema !! name = Some l -> initial_heap !! l = Some s ->
       exists heap'',
         getSchemaValidator schema name "strict" heap'
         = Some (SchemaGate name "strict" s, heap'') /\
         forall (req : @Request Z) o props p,
           req_body req = VObj o -> required s = Some props ->
           In p props -> get_prop o p = None -> inherited p = false ->
           fails_422_naming (SchemaGate name "strict" s) req
             ("must have required property '" +:+ p +:+ "'")).
Proof.
  apply (registry_never_mutated schema initial_heap
           [("todo", "partial"); ("todo", "strict"); ("user", "partial")]).
  intros name l Hl. unfold schema in Hl.
  apply lookup_singleton_Some in Hl as [_ <-].
  exists todo_schema. apply lookup_singleton_eq.
Defined.

(** C4 on the request of the test "required fields are missing". *)
Lemma missing_required_field_witness :
  exists v heap',
    register_todo_routes initial_heap = Some (v, heap') /\
    fails_422_naming (post_validator v) post_only_task
      ("must have required property '" +:+ "priority" +:+ "'") /\
    (run_gate (put_validator v) post_only_task
     = Next (with_body post_only_task
               (snd (validate (delete_required todo_schema)
                       (VObj [("task", VStr "Only task")]))))
     <->
     (forall k, In k (keys [("task", @VStr Z "Only task")]) ->
                In k ["task"; "priority"; "assigned_to"; "is_complete"]) /\
     (forall k t w, In (k, t) (properties todo_schema) ->
                    get_prop [("task", @VStr Z "Only task")] k = Some w ->
                    type_error t w = false)).
Proof.
  apply (missing_required_field post_only_task [("task", VStr "Only task")] "priority").
  - reflexivity.
  - simpl. auto.
  - reflexivity.
Defined.

(** A client that does not accept JSON. *)
Definition html_request (e : Endpoint) : @Request Z :=
  {| req_endpoint := e; req_method := "GET"; req_originalUrl := "/v1/nowhere";
     req_accepts_json := false; req_body := VNull; req_user := None |}.

(** The service started with [NODE_ENV] unset. *)
Definition unset_config : Config := {|
  NODE_ENV := None;
  serviceName := "API";
  useSSL := false;
  serviceUrl := "localhost";
  httpPort := 3000;
  httpsPort := 4443;
|}.

(** The list request of a client that accepts JSON. *)
Definition get_list : @Request Z :=
  example_request GetTodos "GET" "/v1/todo" VNull.

(** C5 fails in the code when [NODE_ENV] is unset.  environment.js reports
    that configuration as production, and the error page of the same
    handler hides the stack there; but the JSON branch asks Express's
    [env] setting, which is then "development": the list request on a
    database that is down is answered 500 (the error carries no status)
    with [{ error: { message, stack } }], the stack present outside any
    development configuration. *)
Theorem json_error_carries_stack_when_NODE_ENV_unset :
  environment unset_config = "production" /\
  handle unset_config example_validators example_ambient get_list
    (Down (newError "connection refused"))
  = ({| res_status := 500;
        res_body :=
          BodyJson (VObj [("error",
                           VObj [("message", VStr "connection refused");
                                 ("stack", VStr "Error: connection refused")])]) |},
     Down (newError "connection refused"),
     [StAuth; StHandler; StErrorHandler]) /\
  res_body (error_handler unset_config (newError "connection refused")
              (html_request GetTodos))
  = BodyRender "error"
      (getErrorTemplateParams unset_config None "Your request is in error."
         StackEmptyArray (html_request GetTodos)).
Proof.
  split; [reflexivity|]. split; reflexivity.
Qed.

(** C7 on the update of the test suite, and on the same update repeated. *)
Lemma update_204_iff_modified_witness :
  exists v heap' upd,
    register_todo_routes initial_heap = Some (v, heap') /\
    snd (validate (delete_required todo_schema) (VObj [("is_complete", @VBool Z true)]))
    = VObj upd /\
    let result := fst (updateOne seeded example_id upd) in
    let res := fst (fst (handle example_config v example_ambient put_complete
                           (Up seeded))) in
    (res_status res = 204 <-> 0 < modifiedCount result) /\
    (0 < modifiedCount result -> res = sendStatus 204) /\
    (modifiedCount result = 0 ->
     res = error_handler example_config
             (createError 404 "Todo not found or not modified")
             (with_body (with_user put_complete stub_user) (VObj upd)) /\
     res_status res = 404 /\
     shown_message (res_body res)
     = Some (if req_accepts_json put_complete
                || String.eqb (environment example_config) "development"
             then "Todo not found or not modified"
             else "Your request is in error.")) /\
    (forall doc, findOne seeded example_id = Some doc -> spread doc upd = doc ->
                 modifiedCount result = 0).
Proof.
  apply (update_204_iff_modified example_config example_ambient put_complete
           "507f1f77bcf86cd799439011" example_id seeded
           [("is_complete", VBool true)]).
  - reflexivity.
  - reflexivity.
  - reflexivity.
  - reflexivity.
Defined.

(** The update of the test suite from a client that does not accept
    JSON. *)
Definition put_complete_html : @Request Z :=
  {| req_endpoint := PutTodo "507f1f77bcf86cd799439011"; req_method := "PUT";
     req_originalUrl := "/v1/todo/507f1f77bcf86cd799439011";
     req_accepts_json := false;
     req_body := VObj [("is_complete", VBool true)]; req_user := None |}.

(** C7 as stated fails: this update has a well-formed identifier and a
    body that passes partial-mode validation, no document has the
    identifier, and the 404 it gets does not carry the message "Todo not
    found or not modified": outside development the error page says "Your
    request is in error." and nothing of the response holds the message of
    the error. *)
Lemma update_404_page_hides_message :
  fst <$> register_todo_routes initial_heap = Some example_validators /\
  castObjectId "507f1f77bcf86cd799439011" = Some example_id /\
  fst (validate (delete_required todo_schema) (req_body put_complete_html)) = [] /\
  handle example_config example_validators example_ambient put_complete_html (Up [])
  = ({| res_status := 404;
        res_body :=
          BodyRender "error"
            (getErrorTemplateParams example_config None
               "Your request is in error." StackEmptyArray
               (with_user put_complete_html stub_user)) |},
     Up [], [StParam; StAuth; StValidate; StHandler; StErrorHandler]) /\
  shown_message
    (res_body (fst (fst (handle example_config example_validators example_ambient
                           put_complete_html (Up [])))))
  = Some "Your request is in error.".
Proof.
  split; [reflexivity|]. split; [reflexivity|]. split; [reflexivity|].
  split; reflexivity.
Qed.

(** C8 on a malformed identifier. *)
Lemma malformed_id_short_circuits_witness :
  handle example_config example_validators example_ambient get_malformed (Up seeded)
  = ({| res_status := 400;
        res_body := BodyJson (VObj [("error", VStr "Invalid ObjectId")]) |},
     Up seeded, [StParam]) /\
  ~ In StValidate
      (snd (handle example_config example_validators example_ambient get_malformed
              (Up seeded))) /\
  ~ In StHandler
      (snd (handle example_config example_validators example_ambient get_malformed
              (Up seeded))).
Proof.
  apply (malformed_id_short_circuits example_config example_validators
           example_ambient get_malformed (Up seeded) "not-an-id").
  - left. reflexivity.
  - reflexivity.
Defined.

(** A body whose [is_complete] is the string [true], with a field the
    schema does not declare. *)
Definition put_coercible_with_extra : @Request Z :=
  example_request (PutTodo "507f1f77bcf86cd799439011") "PUT"
    "/v1/todo/507f1f77bcf86cd799439011"
    (VObj [("is_complete", VStr "true"); ("whoops", VStr "x")]).

(** C2 as stated fails: the validator rejects this body for its extra
    field, and the body that goes on to the error handler has
    [is_complete] coerced to a boolean all the same. *)
Lemma coercion_survives_failure :
  fst <$> register_todo_routes initial_heap = Some example_validators /\
  run_gate (put_validator example_validators) put_coercible_with_extra
  = NextErr (createError 422 "data must NOT have additional properties")
      (with_body put_coercible_with_extra
         (VObj [("is_complete", VBool true); ("whoops", VStr "x")])) /\
  req_body (with_body put_coercible_with_extra
              (VObj [("is_complete", @VBool Z true); ("whoops", VStr "x")]))
  <> req_body put_coercible_with_extra.
Proof. split; [reflexivity|]. split; [reflexivity | discriminate]. Qed.

(** C2, amended, on the same request. *)
Lemma gate_coerces_in_place_witness :
  exists body',
    (run_gate (SchemaGate "todo" "partial" (delete_required todo_schema))
       put_coercible_with_extra
     = Next (with_body put_coercible_with_extra body') \/
     exists msg, run_gate (SchemaGate "todo" "partial" (delete_required todo_schema))
                   put_coercible_with_extra
                 = NextErr (createError 422 msg)
                     (with_body put_coercible_with_extra body')) /\
    exists o', body' = VObj o' /\
      keys o' = keys [("is_complete", @VStr Z "true"); ("whoops", VStr "x")] /\
      (forall k, ~ In k (map fst (properties (delete_required todo_schema))) ->
                 get_prop o' k
                 = get_prop [("is_complete", @VStr Z "true"); ("whoops", VStr "x")] k) /\
      (forall k t, In (k, t) (properties (delete_required todo_schema)) ->
                   get_prop o' k
                   = coerce_field t
                       <$> get_prop [("is_complete", @VStr Z "true");
                                     ("whoops", VStr "x")] k).
Proof.
  apply (gate_coerces_in_place "todo" "partial" (delete_required todo_schema)
           put_coercible_with_extra).
  apply (bool_decide_unpack _). vm_compute. exact I.
Defined.

(** C6 as stated fails: the malformed-identifier 400 and the health-check
    503 are answered by the route, the error handler does not run, and the
    body is not the envelope. *)
Lemma direct_responses_bypass_error_handler :
  fst <$> register_todo_routes initial_heap = Some example_validators /\
  handle example_config example_validators example_ambient get_malformed (Up seeded)
  = ({| res_status := 400;
        res_body := BodyJson (VObj [("error", VStr "Invalid ObjectId")]) |},
     Up seeded, [StParam]) /\
  is_envelope (BodyJson (VObj [("error", @VStr Z "Invalid ObjectId")])) = false /\
  ~ In StErrorHandler [StParam] /\
  handle example_config example_validators example_ambient
    (example_request HealthCheck "GET" "/v1/health_check" VNull)
    (Down (newError "connection refused"))
  = ({| res_status := 503; res_body := BodyText "Service Unavailable" |},
     Down (newError "connection refused"), [StHandler]) /\
  ~ In StErrorHandler [StHandler].
Proof.
  split; [reflexivity|]. split; [reflexivity|]. split; [reflexivity|].
  split; [simpl; intuition discriminate|].
  split; [reflexivity | simpl; intuition discriminate].
Qed.

(** The rate limiter is mounted before the routes: the 101st request of a
    client in the window is a failing request on a todo route that the
    limiter answers by itself, with its own text. *)
Lemma hundred_and_first_request_is_429 :
  serve example_config example_validators example_ambient
    {| earlier_hits := 100; parse_failure := None |} put_complete (Up seeded)
  = ({| res_status := 429;
        res_body :=
          BodyText "Too many requests from this IP, please try again later." |},
     Up seeded, [RateLimiter]).
Proof. reflexivity. Qed.

(** C6, amended, on the update of a document that does not exist, by a
    client within the limit and by one past it. *)
Lemma failing_requests_and_the_error_handler_witness :
  let arr := {| earlier_hits := 0; parse_failure := None |} in
  let res := fst (fst (serve example_config example_validators example_ambient
                         arr put_complete (Up []))) in
  let trace := snd (serve example_config example_validators example_ambient
                      arr put_complete (Up [])) in
  serve example_config example_validators example_ambient
    {| earlier_hits := 100; parse_failure := None |} put_complete (Up [])
  = (too_many_requests, Up [], [RateLimiter]) /\
  res_status res = 404 /\
  In (Later StErrorHandler) trace /\
  (exists err req', res = error_handler example_config err req') /\
  (req_accepts_json put_complete = true -> is_envelope (res_body res) = true).
Proof.
  intros arr res trace. split.
  { apply (failing_requests_and_the_error_handler example_config
             example_validators example_ambient
             {| earlier_hits := 100; parse_failure := None |} put_complete (Up [])).
    simpl. lia. }
  split; [reflexivity|].
  destruct (failing_requests_and_the_error_handler example_config
              example_validators example_ambient arr put_complete (Up []))
    as [_ Hfail].
  assert (Hroute : answered_outside_error_handler example_config arr
                     put_complete (Up []) = false) by reflexivity.
  rewrite Hroute in Hfail. apply Hfail. vm_compute. lia.
Defined.

(** A collection whose one document has another identifier. *)
Definition seeded_other : @Collection Z :=
  [[("_id", VObjectId (H0 :: tail example_id)); ("task", VStr "Seed task 2");
    ("priority", VNum 2%Z); ("assigned_to", VStr "bob");
    ("is_complete", VBool true); ("date_created", VDate 1690000000000)]].

(** A body the strict validator passes by coercion: [is_complete] is the
    string [false]. *)
Definition post_coercible : @Request Z :=
  example_request PostTodo "POST" "/v1/todo"
    (VObj [("task", VStr "x"); ("priority", VNum 1%Z);
           ("assigned_to", VStr "a"); ("is_complete", VStr "false")]).

(** C9 as stated fails: the create answers 201 and the fetch 200, and the
    document fetched holds the boolean [false] where the payload held the
    string. *)
Lemma fetched_document_is_coerced :
  let created := handle example_config example_validators example_ambient
                   post_coercible (Up []) in
  let fetched := handle example_config example_validators example_ambient
                   get_created (snd (fst created)) in
  fst <$> register_todo_routes initial_heap = Some example_validators /\
  res_status (fst (fst created)) = 201 /\
  fst (fst fetched)
  = json_response 200
      (VObj [("_id", VObjectId example_id); ("task", VStr "x");
             ("priority", VNum 1%Z); ("assigned_to", VStr "a");
             ("is_complete", VBool false);
             ("date_created", VDate 1700000000000)]) /\
  get_prop [("task", @VStr Z "x"); ("priority", VNum 1%Z);
            ("assigned_to", VStr "a"); ("is_complete", VStr "false")]
    "is_complete" = Some (VStr "false") /\
  @VBool Z false <> VStr "false".
Proof.
  split; [reflexivity|]. split; [reflexivity|]. split; [reflexivity|].
  split; [reflexivity | discriminate].
Qed.

(** C9, amended, on the create of the test suite. *)
Lemma create_then_fetch_witness :
  exists v heap' coerced,
    register_todo_routes initial_heap = Some (v, heap') /\
    snd (validate todo_schema (req_body post_new_task)) = VObj coerced /\
    keys coerced = ["task"; "priority"; "assigned_to"; "is_complete"] /\
    (forall k t, In (k, t) (properties todo_schema) ->
                 get_prop coerced k
                 = coerce_field t
                     <$> get_prop [("task", @VStr Z "New Task"); ("priority", VNum 3%Z);
                                   ("assigned_to", VStr "charlie");
                                   ("is_complete", VBool false)] k) /\
    ((forall k t w, In (k, t) (properties todo_schema) ->
                    get_prop [("task", @VStr Z "New Task"); ("priority", VNum 3%Z);
                              ("assigned_to", VStr "charlie");
                              ("is_complete", VBool false)] k = Some w ->
                    checkDataType t w = true) ->
     coerced = [("task", VStr "New Task"); ("priority", VNum 3%Z);
                ("assigned_to", VStr "charlie"); ("is_complete", VBool false)]) /\
    ~ In "date_created" ["task"; "priority"; "assigned_to"; "is_complete"] /\
    ~ In "_id" ["task"; "priority"; "assigned_to"; "is_complete"] /\
    let doc := ("_id", VObjectId example_id)
               :: coerced ++ [("date_created", VDate 1700000000000)] in
    handle example_config v example_ambient post_new_task (Up seeded_other)
    = (json_response 201 (VObj doc), Up (seeded_other ++ [doc]),
       [StAuth; StValidate; StHandler]) /\
    handle example_config v example_ambient get_created (Up (seeded_other ++ [doc]))
    = (json_response 200 (VObj doc), Up (seeded_other ++ [doc]),
       [StParam; StAuth; StHandler]).
Proof.
  apply (create_then_fetch example_config example_ambient example_ambient
           post_new_task get_created seeded_other
           [("task", VStr "New Task"); ("priority", VNum 3%Z);
            ("assigned_to", VStr "charlie"); ("is_complete", VBool false)]).
  - reflexivity.
  - reflexivity.
  - apply (bool_decide_unpack _). vm_compute. exact I.
  - reflexivity.
  - reflexivity.
  - repeat constructor.
  - reflexivity.
Defined.

(** * The further properties on concrete requests *)

Definition post_priority_high : @Request Z :=
  example_request PostTodo "POST" "/v1/todo"
    (VObj [("task", VStr "Task"); ("priority", VStr "high");
           ("assigned_to", VStr "alice"); ("is_complete", VBool false)]).

Definition delete_seeded : @Request Z :=
  example_request (DeleteTodo "507f1f77bcf86cd799439011") "DELETE"
    "/v1/todo/507f1f77bcf86cd799439011" VNull.

Definition example_process_env : ProcessEnv := {|
  DB_URI := Some "mongodb://db.example.com:27018";
  DB_URL := None;
  DB_PORT := None;
  DB_USER_NAME := Some "admin";
  DB_PASSWORD := None;
|}.

Lemma unknown_schema_type_gate_witness :
  exists g,
    getSchemaValidator schema "user" "strict" initial_heap = Some (g, initial_heap) /\
    run_gate g post_only_task
    = NextErr (createError 422 "Unknown schema type") post_only_task.
Proof.
  apply (unknown_schema_type_gate schema "user" "strict" initial_heap post_only_task).
  reflexivity.
Defined.

Lemma type_mismatch_rejected_witness :
  exists compiled heap',
    getSchemaValidator schema "todo" "strict" initial_heap
    = Some (SchemaGate "todo" "strict" compiled, heap') /\
    fails_422_naming (SchemaGate "todo" "strict" compiled) post_priority_high
      ("must be " +:+ type_name TNumber).
Proof.
  apply (type_mismatch_rejected "strict" post_priority_high
           [("task", VStr "Task"); ("priority", VStr "high");
            ("assigned_to", VStr "alice"); ("is_complete", VBool false)]
           "priority" TNumber (VStr "high")).
  - reflexivity.
  - simpl. auto.
  - reflexivity.
  - reflexivity.
Defined.

Lemma well_typed_todo_accepted_witness :
  run_gate (SchemaGate "todo" "strict" todo_schema) post_new_task
  = Next (with_body post_new_task
            (VObj [("task", VStr "New Task"); ("priority", VNum 3%Z);
                   ("assigned_to", VStr "charlie"); ("is_complete", VBool false)])).
Proof.
  apply (well_typed_todo_accepted post_new_task).
  - reflexivity.
  - intros p [<- | [<- | [<- | [<- | []]]]]; discriminate.
  - intros k Hk. exact Hk.
  - intros k t w Hin Hg. simpl in Hin.
    destruct Hin as [E | [E | [E | [E | []]]]]; inversion E; subst;
      simpl in Hg; inversion Hg; reflexivity.
Defined.

Lemma strict_pass_implies_partial_pass_witness :
  run_gate (SchemaGate "todo" "partial" (delete_required todo_schema)) post_new_task
  = Next (with_body post_new_task (req_body post_new_task)).
Proof.
  apply (strict_pass_implies_partial_pass "todo" "todo" "strict" "partial"
           todo_schema post_new_task).
  reflexivity.
Defined.

Lemma rejected_body_never_reaches_handler_witness :
  exists trace,
    handle example_config example_validators example_ambient post_only_task
      (Up seeded)
    = (error_handler example_config
         (createError 422
            (errorsText (fst (validate todo_schema (req_body post_only_task)))))
         (with_body (with_user post_only_task stub_user)
            (snd (validate todo_schema (req_body post_only_task)))),
       Up seeded, trace) /\
    ~ In StHandler trace /\ In StValidate trace.
Proof.
  apply (rejected_body_never_reaches_handler example_config example_validators
           example_ambient post_only_task (Up seeded) "todo" "strict" todo_schema).
  - left. split; reflexivity.
  - intros Hc. vm_compute in Hc. discriminate.
Defined.

Lemma html_error_page_hides_details_witness :
  error_handler example_config (createError 404 "Todo not found")
    (html_request Unrouted)
  = {| res_status := 404;
       res_body := BodyRender "error"
         (getErrorTemplateParams example_config None "Your request is in error."
            StackEmptyArray (html_request Unrouted)) |}.
Proof.
  apply (html_error_page_hides_details example_config
           (createError 404 "Todo not found") (html_request Unrouted)).
  - reflexivity.
  - intros Hc. vm_compute in Hc. discriminate.
Defined.

Lemma unset_NODE_ENV_json_shows_stack_witness :
  environment unset_config = "production" /\
  app_get_env unset_config = "development" /\
  res_body (error_handler unset_config (newError "boom") post_only_task)
  = BodyJson (VObj [("error", VObj [("message", VStr "boom");
                                    ("stack", VStr "Error: boom")])]) /\
  res_body (error_handler unset_config (newError "boom") (html_request Unrouted))
  = BodyRender "error"
      (getErrorTemplateParams unset_config None "Your request is in error."
         StackEmptyArray (html_request Unrouted)).
Proof.
  apply (unset_NODE_ENV_json_shows_stack unset_config (newError "boom")
           post_only_task (html_request Unrouted) "Error: boom").
  - left. reflexivity.
  - reflexivity.
  - reflexivity.
  - reflexivity.
Defined.

Lemma unmatched_route_is_404_witness :
  handle example_config example_validators example_ambient
    (example_request Unrouted "GET" "/v1/nowhere" VNull) (Up seeded)
  = (error_handler example_config (createError 404 "Not Found")
       (example_request Unrouted "GET" "/v1/nowhere" VNull),
     Up seeded, [StNotFound; StErrorHandler]) /\
  res_status (error_handler example_config (createError 404 "Not Found")
                (example_request Unrouted "GET" "/v1/nowhere" VNull)) = 404.
Proof.
  apply (unmatched_route_is_404 example_config example_validators example_ambient
           (example_request Unrouted "GET" "/v1/nowhere" VNull) (Up seeded)).
  reflexivity.
Defined.

Lemma store_failure_reaches_error_handler_witness :
  exists req' trace,
    handle example_config example_validators example_ambient
      (example_request GetTodos "GET" "/v1/todo" VNull)
      (Down (newError "connection refused"))
    = (error_handler example_config (newError "connection refused") req',
       Down (newError "connection refused"), trace) /\
    In StHandler trace /\
    (err_status (newError "connection refused") = None ->
     res_status (error_handler example_config (newError "connection refused") req')
     = 500).
Proof.
  apply (store_failure_reaches_error_handler example_config example_validators
           example_ambient (example_request GetTodos "GET" "/v1/todo" VNull)
           (newError "connection refused")).
  exact I.
Defined.

Lemma list_returns_all_witness :
  handle example_config example_validators example_ambient
    (example_request GetTodos "GET" "/v1/todo" VNull) (Up seeded)
  = (json_response 200 (VArr (map VObj seeded)), Up seeded, [StAuth; StHandler]) /\
  (seeded = [] ->
   fst (fst (handle example_config example_validators example_ambient
               (example_request GetTodos "GET" "/v1/todo" VNull) (Up seeded)))
   = json_response 200 (VArr [])).
Proof.
  apply (list_returns_all example_config example_validators example_ambient
           (example_request GetTodos "GET" "/v1/todo" VNull) seeded).
  reflexivity.
Defined.

Lemma get_by_id_found_or_404_witness :
  handle example_config example_validators example_ambient get_created (Up [])
  = (error_handler example_config (createError 404 "Todo not found")
       (with_user get_created stub_user),
     Up [], [StParam; StAuth; StHandler; StErrorHandler]).
Proof.
  apply (get_by_id_found_or_404 example_config example_validators example_ambient
           get_created [] "507f1f77bcf86cd799439011" example_id).
  - reflexivity.
  - reflexivity.
Defined.

Lemma auth_test_returns_stub_identity_witness :
  handle example_config example_validators example_ambient
    (example_request AuthTest "GET" "/v1/auth_test" VNull) (Up seeded)
  = (json_response 200
       (VObj [("authenticated_user",
               VObj [("id", VStr "placeholder-user-id");
                     ("username", VStr "stub_user");
                     ("roles", VArr [VStr "user"])])]),
     Up seeded, [StAuth; StHandler]).
Proof.
  apply (auth_test_returns_stub_identity example_config example_validators
           example_ambient (example_request AuthTest "GET" "/v1/auth_test" VNull)
           (Up seeded)).
  reflexivity.
Defined.

Lemma throw_error_is_500_witness :
  let req := example_request ThrowError "GET" "/v1/throw_error" VNull in
  handle example_config example_validators example_ambient req (Up seeded)
  = (error_handler example_config
       (newError "💥 Uncaught test exception from /v1/throw_error") req,
     Up seeded, [StHandler; StErrorHandler]) /\
  res_status
    (fst (fst (handle example_config example_validators example_ambient req
                 (Up seeded)))) = 500 /\
  shown_message
    (res_body (fst (fst (handle example_config example_validators example_ambient
                           req (Up seeded)))))
  = Some (if req_accepts_json req
             || String.eqb (environment example_config) "development"
          then "💥 Uncaught test exception from /v1/throw_error"
          else "Your request is in error.").
Proof.
  intros req.
  apply (throw_error_is_500 example_config example_validators example_ambient
           req (Up seeded)).
  - reflexivity.
  - reflexivity.
Defined.

Lemma delete_removes_the_document_witness :
  exists c',
    handle example_config example_validators example_ambient delete_seeded
      (Up seeded)
    = (sendStatus 204, Up c', [StParam; StAuth; StHandler]) /\
    S (length c') = length seeded /\
    (forall oid', oid' <> example_id -> findOne c' oid' = findOne seeded oid') /\
    (NoDup (ids seeded) -> findOne c' example_id = None).
Proof.
  apply (delete_removes_the_document example_config example_validators
           example_ambient delete_seeded seeded "507f1f77bcf86cd799439011"
           example_id
           [("_id", VObjectId example_id); ("task", VStr "Seed task 1");
            ("priority", VNum 1%Z); ("assigned_to", VStr "alice");
            ("is_complete", VBool false); ("date_created", VDate 1690000000000)]).
  - reflexivity.
  - reflexivity.
  - reflexivity.
Defined.

Lemma delete_miss_is_404_witness :
  handle example_config example_validators example_ambient delete_seeded (Up [])
  = (error_handler example_config (createError 404 "Todo not found")
       (with_user delete_seeded stub_user),
     Up [], [StParam; StAuth; StHandler; StErrorHandler]).
Proof.
  apply (delete_miss_is_404 example_config example_validators example_ambient
           delete_seeded [] "507f1f77bcf86cd799439011" example_id).
  - reflexivity.
  - reflexivity.
  - reflexivity.
Defined.

Lemma update_merges_supplied_fields_witness :
  exists c',
    update (Up seeded) "507f1f77bcf86cd799439011" [("is_complete", VBool true)]
    = (inr (negb (object_eqb (hd [] seeded)
                    (spread (hd [] seeded) [("is_complete", VBool true)]))),
       Up c') /\
    findOne c' example_id
    = Some (spread (hd [] seeded) [("is_complete", VBool true)]) /\
    (forall k, In k ["is_complete"] ->
               get_prop (spread (hd [] seeded) [("is_complete", VBool true)]) k
               = get_prop [("is_complete", @VBool Z true)] k) /\
    (forall k, ~ In k ["is_complete"] ->
               get_prop (spread (hd [] seeded) [("is_complete", VBool true)]) k
               = get_prop (hd [] seeded) k) /\
    length c' = length seeded /\
    (forall oid', oid' <> example_id -> findOne c' oid' = findOne seeded oid').
Proof.
  apply (update_merges_supplied_fields seeded "507f1f77bcf86cd799439011"
           example_id [("is_complete", VBool true)] (hd [] seeded)).
  - reflexivity.
  - reflexivity.
  - simpl. intuition discriminate.
  - apply NoDup_singleton.
Defined.

Lemma todo_module_keeps_ids_unique_witness :
  (exists c', snd (create example_ambient (Up seeded)
                     [("task", @VStr Z "New Task")]) = Up c' /\ NoDup (ids c') /\
              (forall e, fst (fst (create example_ambient (Up seeded)
                                     [("task", @VStr Z "New Task")])) = inl e ->
                         c' = seeded)) /\
  (~ In "_id" (keys [("is_complete", @VBool Z true)]) ->
   exists c', snd (update (Up seeded) "507f1f77bcf86cd799439011"
                     [("is_complete", VBool true)]) = Up c' /\ NoDup (ids c') /\
              (forall e, fst (update (Up seeded) "507f1f77bcf86cd799439011"
                                [("is_complete", VBool true)]) = inl e ->
                         c' = seeded)) /\
  (exists c', snd (delete (Up seeded) "507f1f77bcf86cd799439011") = Up c' /\
              NoDup (ids c') /\
              (forall e, fst (delete (Up seeded) "507f1f77bcf86cd799439011") = inl e ->
                         c' = seeded)).
Proof.
  apply (todo_module_keeps_ids_unique example_ambient seeded
           [("task", VStr "New Task")] [("is_complete", VBool true)]
           "507f1f77bcf86cd799439011").
  apply NoDup_singleton.
Defined.

Lemma castObjectId_round_trip_witness :
  castObjectId (toHexString example_id) = Some example_id /\
  String.length "507F1F77BCF86CD799439011" = 24 /\ length example_id = 24 /\
  castObjectId (toHexString example_id) = Some example_id.
Proof.
  destruct (castObjectId_round_trip "507F1F77BCF86CD799439011" example_id)
    as [Hto Hfrom].
  split; [apply Hto; reflexivity | apply Hfrom; reflexivity].
Defined.

Lemma newObjectId_depends_on_second_only_witness :
  ObjectId_isValid (toHexString (newObjectId 1700000000123)) = true /\
  castObjectId (toHexString (newObjectId 1700000000123))
  = Some (newObjectId 1700000000123) /\
  skipn 8 (newObjectId 1700000000123) = repeat H0 16 /\
  newObjectId 1700000000123 = newObjectId 1700000000999.
Proof.
  destruct (newObjectId_depends_on_second_only 1700000000123 1700000000999)
    as (Hvalid & Hcast & Hzero & Hsame).
  split; [exact Hvalid|]. split; [exact Hcast|]. split; [exact Hzero|].
  apply Hsame. reflexivity.
Defined.

Lemma mongo_uri_ignores_DB_URI_witness :
  mongo_uri (fun s => s) (with_DB_URI example_process_env None)
  = mongo_uri (fun s => s) example_process_env /\
  mongo_uri (fun s => s) example_process_env = "mongodb://localhost:27017".
Proof.
  destruct (mongo_uri_ignores_DB_URI (fun s => s) example_process_env None)
    as (Hsame & Hnoauth & _).
  split; [exact Hsame|]. apply Hnoauth. right. reflexivity.
Defined.

Lemma update_then_fetch_witness :
  exists v heap' upd,
    register_todo_routes initial_heap = Some (v, heap') /\
    snd (validate (delete_required todo_schema)
           (VObj [("is_complete", @VBool Z true)])) = VObj upd /\
    fst (fst (handle example_config v example_ambient get_created
                (snd (fst (handle example_config v example_ambient put_complete
                             (Up seeded))))))
    = json_response 200 (VObj (spread (hd [] seeded) upd)) /\
    (forall k, ~ In k (keys [("is_complete", @VBool Z true)]) ->
               get_prop (spread (hd [] seeded) upd) k = get_prop (hd [] seeded) k) /\
    get_prop (spread (hd [] seeded) upd) "_id" = get_prop (hd [] seeded) "_id" /\
    get_prop (spread (hd [] seeded) upd) "date_created"
    = get_prop (hd [] seeded) "date_created".
Proof.
  apply (update_then_fetch example_config example_ambient example_ambient
           put_complete get_created "507f1f77bcf86cd799439011" example_id seeded
           [("is_complete", VBool true)] (hd [] seeded)).
  - reflexivity.
  - reflexivity.
  - reflexivity.
  - reflexivity.
  - reflexivity.
  - reflexivity.
Defined.
